(** * Testomat.io MCP server: authentication, request execution and markup

    A shallow embedding of the core of [index.js] (class
    [TestomatioMCPServer]): the session-token cache ([authenticate]), the
    three request executors ([makeRequest], [makePostRequest],
    [makePutRequest]), the XML formatter ([escapeXml], [formatValue],
    [formatNestedObject], [formatModel]), the request builders of
    [createTest] / [updateTest], the configuration normalizers
    ([normalizeString], [normalizeBaseUrl]), the search parameters and
    their description ([buildSearchParams], [buildSearchDescription]),
    the remaining tool operations and the tool-call handler.

    JavaScript strings are modelled as [string] (sequences of character
    codes); every character the code inspects is ASCII.  Numbers are the
    integers ([Z]); JSON objects are association lists in [Object.entries]
    order. *)

From Stdlib Require Import String Ascii List ZArith Lia Bool DecimalString.
Import ListNotations.
Local Open Scope string_scope.
Set Warnings "-register-all".

(* ================================================================== *)
(** ** String primitives used by the source *)

Module Str.

(** The line feed of the template literals and of [join('\n')]. *)
Definition nl : string := String (ascii_of_nat 10) EmptyString.

(** The double quote character. *)
Definition dquote : ascii := Eval cbv in ascii_of_nat 34.

(** [s.startsWith(pat)]: also the test a regular expression made of
    literal characters performs at one position. *)
Fixpoint startsWith (pat s : string) {struct pat} : bool :=
  match pat with
  | EmptyString => true
  | String a pat' =>
      match s with
      | EmptyString => false
      | String b s' => Ascii.eqb a b && startsWith pat' s'
      end
  end.

Fixpoint drop (n : nat) (s : string) : string :=
  match n, s with
  | O, _ => s
  | S _, EmptyString => EmptyString
  | S k, String _ s' => drop k s'
  end.

(** [s.includes(pat)]. *)
Fixpoint includes (pat s : string) : bool :=
  startsWith pat s ||
  match s with
  | EmptyString => false
  | String _ s' => includes pat s'
  end.

(** [s.replace(pat, rep)] with a string pattern: only the first
    occurrence is replaced. *)
Fixpoint replaceFirst (pat rep s : string) : string :=
  if startsWith pat s then rep ++ drop (String.length pat) s
  else match s with
       | EmptyString => EmptyString
       | String c s' => String c (replaceFirst pat rep s')
       end.

(** [s.replace(/pat/g, rep)] for a non-empty literal pattern: a scan from
    the left; after a match the scan resumes behind it ([skip] counts the
    matched characters still to be dropped). *)
Fixpoint replaceAllFrom (pat rep : string) (skip : nat) (s : string) : string :=
  match s with
  | EmptyString => EmptyString
  | String c s' =>
      match skip with
      | S k => replaceAllFrom pat rep k s'
      | O =>
          if startsWith pat s
          then rep ++ replaceAllFrom pat rep (String.length pat - 1) s'
          else String c (replaceAllFrom pat rep 0 s')
      end
  end.

Definition replaceAll (pat rep s : string) : string :=
  replaceAllFrom pat rep 0 s.

(** Character-wise substitution, the reference reading of a global
    replace of one character. *)
Fixpoint flatMap (f : ascii -> string) (s : string) : string :=
  match s with
  | EmptyString => EmptyString
  | String c s' => f c ++ flatMap f s'
  end.

(** [xs.join(sep)] on an array of strings. *)
Definition join (sep : string) (xs : list string) : string :=
  String.concat sep xs.

End Str.

(* ================================================================== *)
(** ** escapeXml on strings *)

(** The body of [escapeXml] for a string argument: five global
    replacements, the ampersand first. *)
Definition escapeXmlString (text : string) : string :=
  Str.replaceAll "'" "&#39;"
    (Str.replaceAll (String Str.dquote "") "&quot;"
      (Str.replaceAll ">" "&gt;"
        (Str.replaceAll "<" "&lt;"
          (Str.replaceAll "&" "&amp;" text)))).

(** What one character becomes. *)
Definition escapeChar (c : ascii) : string :=
  if Ascii.eqb c "&" then "&amp;"
  else if Ascii.eqb c "<" then "&lt;"
  else if Ascii.eqb c ">" then "&gt;"
  else if Ascii.eqb c Str.dquote then "&quot;"
  else if Ascii.eqb c "'" then "&#39;"
  else String c EmptyString.

(** The reverse substitution of the five entities, as a reader of the
    markup would undo [escapeXmlString]: the same five global
    replacements backwards, the ampersand last.  The source has no such
    function; this is the specification's notion of reconstructing the
    original string. *)
Definition unescapeXmlString (text : string) : string :=
  Str.replaceAll "&amp;" "&"
    (Str.replaceAll "&lt;" "<"
      (Str.replaceAll "&gt;" ">"
        (Str.replaceAll "&quot;" (String Str.dquote "")
          (Str.replaceAll "&#39;" "'" text)))).

(** Partial escapings: the intermediate strings of the reverse
    substitution. *)
Definition escapeOnly (cs : list ascii) (c : ascii) : string :=
  if existsb (Ascii.eqb c) cs then escapeChar c else String c EmptyString.

(* ================================================================== *)
(** ** JavaScript values *)

Module JS.

(** JSON-shaped values.  Properties are own properties only: the
    prototype chain and the built-in properties of strings and arrays
    ([length], indices, methods) are outside the model. *)
Inductive value : Type :=
| VUndefined
| VNull
| VBool (b : bool)
| VNum (n : Z)
| VStr (s : string)
| VArr (items : list value)
| VObj (entries : list (string * value)).

(** Exceptions: [new Error(message)] thrown by the source, and the two
    run-time errors its expressions can raise. *)
Inductive exn : Type :=
| Error (message : string)
| TypeError (message : string)
| SyntaxError (message : string).

Definition message (e : exn) : string :=
  match e with Error m | TypeError m | SyntaxError m => m end.

(** How an evaluation ends: a value, an exception, or a recursion budget
    used up before the call returned. *)
Inductive completion (A : Type) : Type :=
| Normal (a : A)
| Throw (e : exn)
| Unfinished.
Arguments Normal {A} a.
Arguments Throw {A} e.
Arguments Unfinished {A}.

(** [if (v)], [!v], [v || w], [v && w]. *)
Definition truthy (v : value) : bool :=
  match v with
  | VUndefined | VNull => false
  | VBool b => b
  | VNum n => negb (n =? 0)%Z
  | VStr s => negb (s =? "")
  | VArr _ | VObj _ => true
  end.

Definition or_ (v w : value) : value := if truthy v then v else w.
Definition and_ (v w : value) : value := if truthy v then w else v.

(** [typeof v === 'object'] holds of [null], arrays and objects. *)
Definition typeofObject (v : value) : bool :=
  match v with
  | VNull | VArr _ | VObj _ => true
  | _ => false
  end.

Fixpoint lookup (k : string) (kvs : list (string * value)) : option value :=
  match kvs with
  | [] => None
  | (k', v) :: kvs' => if k' =? k then Some v else lookup k kvs'
  end.

(** [obj[k]] on an object. *)
Definition getOwn (k : string) (kvs : list (string * value)) : value :=
  match lookup k kvs with
  | Some v => v
  | None => VUndefined
  end.

(** [v[k]] / [v.k] on any value. *)
Definition getProp (v : value) (k : string) : completion value :=
  match v with
  | VObj kvs => Normal (getOwn k kvs)
  | VUndefined | VNull =>
      Throw (TypeError ("Cannot read properties of null or undefined (reading '"
                        ++ k ++ "')"))
  | _ => Normal VUndefined
  end.

(** [obj[k] = v]: an existing key keeps its place. *)
Fixpoint setOwn (k : string) (v : value) (kvs : list (string * value))
  : list (string * value) :=
  match kvs with
  | [] => [(k, v)]
  | (k', v') :: kvs' =>
      if k' =? k then (k, v) :: kvs' else (k', v') :: setOwn k v kvs'
  end.

(** [Object.fromEntries]. *)
Definition fromEntries (kvs : list (string * value)) : list (string * value) :=
  fold_left (fun acc kv => setOwn (fst kv) (snd kv) acc) kvs [].

(** Rest destructuring [{ k1, ..., kn, ...rest } = obj]. *)
Definition omit (ks : list string) (kvs : list (string * value))
  : list (string * value) :=
  filter (fun kv => negb (existsb (String.eqb (fst kv)) ks)) kvs.

Definition string_of_Z (n : Z) : string :=
  NilZero.string_of_int (Z.to_int n).

(** [String(v)] and the conversion of a template literal [`${v}`]. *)
Fixpoint toStr (v : value) : string :=
  match v with
  | VUndefined => "undefined"
  | VNull => "null"
  | VBool true => "true"
  | VBool false => "false"
  | VNum n => string_of_Z n
  | VStr s => s
  | VArr xs =>
      Str.join ","
        (map (fun x => match x with
                       | VUndefined | VNull => ""
                       | _ => toStr x
                       end) xs)
  | VObj _ => "[object Object]"
  end.

(** The keys ["0"], ["1"], ... of an array. *)
Fixpoint indexed {A : Type} (i : nat) (xs : list A) : list (string * A) :=
  match xs with
  | [] => []
  | x :: xs' => (string_of_Z (Z.of_nat i), x) :: indexed (S i) xs'
  end.

End JS.
Export JS.

(* ================================================================== *)
(** ** The network and the server object *)

Inductive method : Type := GET | POST | PUT.

Inductive payload : Type :=
| NoBody
| FormBody (s : string)          (* a form-encoded string *)
| JsonBody (data : value).       (* [JSON.stringify(data)] *)

(** One [fetch] call.  The query is kept as the list of
    [searchParams.append] calls; percent-encoding is not modelled. *)
Record request : Type := {
  req_method : method;
  req_url : string;
  req_query : list (string * string);
  req_headers : list (string * string);
  req_body : payload
}.

(** What [fetch] resolves to: [text] is the raw body, [json] the result
    of parsing it ([None]: not JSON). *)
Record response : Type := {
  status : Z;
  statusText : string;
  text : string;
  json : option value
}.

(** [response.ok]. *)
Definition ok (r : response) : bool :=
  (200 <=? status r)%Z && (status r <=? 299)%Z.

(** The remote side: the answer to a request, given how many calls were
    made before it. *)
Definition network : Type := nat -> request -> response.

Record config : Type := {
  token : string;
  projectId : string;
  baseUrl : string
}.

(** The mutable part of a [TestomatioMCPServer], with the log of the
    [fetch] calls made so far (oldest first). *)
Record state : Type := {
  jwtToken : value;
  calls : list request
}.

(** The object after its constructor ran. *)
Definition initial : state := {| jwtToken := VNull; calls := [] |}.

(** Methods: state passing with exceptions. *)
Definition M (A : Type) : Type := state -> completion A * state.

Definition ret {A} (a : A) : M A := fun st => (Normal a, st).
Definition throw {A} (e : exn) : M A := fun st => (Throw e, st).
Definition unfinished {A} : M A := fun st => (Unfinished, st).

Definition bind {A B} (m : M A) (k : A -> M B) : M B :=
  fun st =>
    match m st with
    | (Normal a, st') => k a st'
    | (Throw e, st') => (Throw e, st')
    | (Unfinished, st') => (Unfinished, st')
    end.

Definition lift {A} (c : completion A) : M A := fun st => (c, st).

Notation "x <- m ;; k" := (bind m (fun x => k))
  (at level 61, m at next level, right associativity).
Notation "m ;;; k" := (bind m (fun _ => k))
  (at level 61, right associativity).

Definition getToken : M value := fun st => (Normal (jwtToken st), st).

Definition setToken (v : value) : M unit :=
  fun st => (Normal tt, {| jwtToken := v; calls := calls st |}).

(** The state after one more logged call. *)
Definition logged (st : state) (r : request) : state :=
  {| jwtToken := jwtToken st; calls := calls st ++ [r] |}.

(** [await response.json()]. *)
Definition parsed (r : response) : M value :=
  match json r with
  | Some v => ret v
  | None => throw (SyntaxError "Unexpected token in JSON")
  end.

(** A logged call is the login exchange: it alone sends a form-encoded
    body. *)
Definition isLogin (r : request) : bool :=
  match req_body r with
  | FormBody _ => true
  | _ => false
  end.

Definition resourceCalls (log : list request) : nat :=
  List.length (filter (fun r => negb (isLogin r)) log).

Definition loginCalls (log : list request) : nat :=
  List.length (filter isLogin log).

(* ================================================================== *)
(** ** authenticate and the request executors *)

Section Server.

Variable cfg : config.
Variable net : network.

(** [await fetch(...)]: the call is logged and the network answers. *)
Definition fetch (r : request) : M response :=
  fun st =>
    (Normal (net (List.length (calls st)) r),
     {| jwtToken := jwtToken st; calls := calls st ++ [r] |}).

Definition loginRequest : request :=
  {| req_method := POST;
     req_url := baseUrl cfg ++ "/api/login";
     req_query := [];
     req_headers := [("Content-Type", "application/x-www-form-urlencoded")];
     req_body := FormBody ("api_token=" ++ token cfg) |}.

Definition authenticate : M value :=
  cached <- getToken ;;
  if truthy cached then ret cached
  else
    response <- fetch loginRequest ;;
    if negb (ok response) then
      throw (Error ("Authentication failed: HTTP "
                    ++ string_of_Z (status response) ++ ": "
                    ++ statusText response ++ ". Response: "
                    ++ text response))
    else
      data <- parsed response ;;
      jwt <- lift (getProp data "jwt") ;;
      if negb (truthy jwt) then
        throw (Error "Authentication failed: No JWT token received in response")
      else
        setToken jwt ;;;
        getToken.

(** The [forEach] over [Object.entries(params)] of [makeRequest]. *)
Definition appendParam (q : list (string * string)) (kv : string * value)
  : list (string * string) :=
  match snd kv with
  | VUndefined | VNull => q
  | VArr vs => q ++ map (fun v => (fst kv, toStr v)) vs
  | v => q ++ [(fst kv, toStr v)]
  end.

Definition searchParams (params : list (string * value))
  : list (string * string) :=
  fold_left appendParam params [].

Definition resourceUrl (path : string) : string :=
  baseUrl cfg ++ "/api/" ++ projectId cfg ++ path.

Definition resourceHeaders (jwt : value) : list (string * string) :=
  [("Authorization", toStr jwt); ("Content-Type", "application/json")].

(** The [fetch] call of a resource request. *)
Definition resourceRequest (m : method) (path : string)
    (query : list (string * string)) (jwt : value) (body : payload) : request :=
  {| req_method := m;
     req_url := resourceUrl path;
     req_query := query;
     req_headers := resourceHeaders jwt;
     req_body := body |}.

(** [makeRequest(path, params)].  The method calls itself; [fuel] bounds
    the depth of that recursion. *)
Fixpoint makeRequest (fuel : nat) (path : string)
    (params : list (string * value)) : M value :=
  match fuel with
  | O => unfinished
  | S fuel' =>
      jwt <- authenticate ;;
      response <- fetch (resourceRequest GET path (searchParams params)
                                         jwt NoBody) ;;
      if negb (ok response) then
        current <- getToken ;;
        if (status response =? 401)%Z && truthy current then
          setToken VNull ;;;
          makeRequest fuel' path params
        else
          throw (Error ("HTTP " ++ string_of_Z (status response) ++ ": "
                        ++ statusText response))
      else parsed response
  end.

(** [makePostRequest(path, data)]. *)
Fixpoint makePostRequest (fuel : nat) (path : string) (data : value)
  : M value :=
  match fuel with
  | O => unfinished
  | S fuel' =>
      jwt <- authenticate ;;
      response <- fetch (resourceRequest POST path [] jwt (JsonBody data)) ;;
      if negb (ok response) then
        current <- getToken ;;
        if (status response =? 401)%Z && truthy current then
          setToken VNull ;;;
          makePostRequest fuel' path data
        else
          throw (Error ("HTTP " ++ string_of_Z (status response) ++ ": "
                        ++ statusText response ++ "; " ++ text response))
      else parsed response
  end.

(** [makePutRequest(path, data)]. *)
Fixpoint makePutRequest (fuel : nat) (path : string) (data : value)
  : M value :=
  match fuel with
  | O => unfinished
  | S fuel' =>
      jwt <- authenticate ;;
      response <- fetch (resourceRequest PUT path [] jwt (JsonBody data)) ;;
      if negb (ok response) then
        current <- getToken ;;
        if (status response =? 401)%Z && truthy current then
          setToken VNull ;;;
          makePutRequest fuel' path data
        else
          throw (Error ("HTTP " ++ string_of_Z (status response) ++ ": "
                        ++ statusText response))
      else parsed response
  end.

End Server.

(* ================================================================== *)
(** ** The markup formatter *)

(** [escapeXml(text)]: anything but a string is returned as it is. *)
Definition escapeXml (text : value) : value :=
  match text with
  | VStr s => VStr (escapeXmlString s)
  | v => v
  end.

(** [arr.map(x => `<t>${this.escapeXml(x)}</t>`).join('')]. *)
Definition escapedChildren (tag : string) (items : list value) : string :=
  Str.join ""
    (map (fun x => "<" ++ tag ++ ">" ++ toStr (escapeXml x) ++ "</" ++ tag ++ ">")
         items).

(** [arr.map(id => `<test_id>${id}</test_id>`).join('')]. *)
Definition rawChildren (tag : string) (items : list value) : string :=
  Str.join ""
    (map (fun x => "<" ++ tag ++ ">" ++ toStr x ++ "</" ++ tag ++ ">") items).

(** The branch of [formatNestedObject] for an embedded test. *)
Definition formatEmbeddedTest (obj : list (string * value))
  : completion string :=
  let tags := or_ (getOwn "tags" obj) (VArr []) in
  match tags with
  | VArr items =>
      Normal (Str.nl ++ "    <id>" ++ toStr (or_ (getOwn "id" obj) (VStr ""))
              ++ "</id>" ++ Str.nl
              ++ "    <title>"
              ++ toStr (escapeXml (or_ (getOwn "title" obj) (VStr "")))
              ++ "</title>" ++ Str.nl
              ++ "    <priority>"
              ++ toStr (or_ (getOwn "priority" obj) (VStr "normal"))
              ++ "</priority>" ++ Str.nl
              ++ "    <tags>" ++ escapedChildren "tag" items ++ "</tags>")
  | _ => Throw (TypeError "(obj.tags || []).map is not a function")
  end.

(** [formatValue(value, fieldName)], with [formatNestedObject] inlined at
    its only call (the object case). *)
Fixpoint formatValue (value : JS.value) (fieldName : string) {struct value}
  : completion string :=
  match value with
  | VNull | VUndefined => Normal ""
  | VArr items =>
      if fieldName =? "tags" then Normal (escapedChildren "tag" items)
      else if fieldName =? "labels" then Normal (escapedChildren "label" items)
      else if fieldName =? "tests-ids" then Normal (rawChildren "test_id" items)
      else Normal (escapedChildren "item" items)
  | VObj obj =>
      if (fieldName =? "test") && truthy (getOwn "id" obj)
      then formatEmbeddedTest obj
      else
        match
          (fix entries (kvs : list (string * JS.value))
             : completion (list string) :=
             match kvs with
             | [] => Normal []
             | (key, v) :: kvs' =>
                 match formatValue v key with
                 | Normal s =>
                     match entries kvs' with
                     | Normal rest =>
                         Normal (("<" ++ key ++ ">" ++ s ++ "</" ++ key ++ ">")
                                 :: rest)
                     | Throw e => Throw e
                     | Unfinished => Unfinished
                     end
                 | Throw e => Throw e
                 | Unfinished => Unfinished
                 end
             end) obj
        with
        | Normal parts => Normal (Str.join (Str.nl ++ "    ") parts)
        | Throw e => Throw e
        | Unfinished => Unfinished
        end
  | VStr s => Normal (escapeXmlString s)
  | v => Normal (toStr v)
  end.

(** [formatNestedObject(obj, fieldName)] as a function of its own. *)
Definition formatNestedObject (obj : list (string * value)) (fieldName : string)
  : completion string :=
  formatValue (VObj obj) fieldName.

(** What [obj[name]] gives for a name that is not known beforehand: a
    JSON value, or a built-in function that every object inherits. *)
Inductive member : Type :=
| Data (v : JS.value)
| Native (name : string).

(** The members of [Object.prototype]: eleven functions, and the
    accessor [__proto__], which gives [Object.prototype] itself (an
    object without enumerable entries). *)
Definition objectPrototype (name : string) : option member :=
  if name =? "constructor" then Some (Native "Object")
  else if existsb (String.eqb name)
            ["toString"; "toLocaleString"; "valueOf"; "hasOwnProperty";
             "isPrototypeOf"; "propertyIsEnumerable"; "__defineGetter__";
             "__defineSetter__"; "__lookupGetter__"; "__lookupSetter__"]
  then Some (Native name)
  else if name =? "__proto__" then Some (Data (VObj []))
  else None.

(** [obj[name]] on an object: its own entry, or else the inherited
    member. *)
Definition memberOf (obj : list (string * value)) (name : string) : member :=
  match lookup name obj with
  | Some v => Data v
  | None =>
      match objectPrototype name with
      | Some m => m
      | None => Data VUndefined
      end
  end.

Definition memberTruthy (m : member) : bool :=
  match m with
  | Data v => truthy v
  | Native _ => true
  end.

(** [a || b]. *)
Definition orMember (a b : member) : member :=
  if memberTruthy a then a else b.

(** [typeof m === 'object']. *)
Definition memberTypeofObject (m : member) : bool :=
  match m with
  | Data v => typeofObject v
  | Native _ => false
  end.

(** [String(f)] for a built-in function, as Node prints it. *)
Definition nativeSource (name : string) : string :=
  "function " ++ name ++ "() { [native code] }".

(** [formatValue(value, fieldName)] on what a property read gave. *)
Definition formatMember (m : member) (fieldName : string) : completion string :=
  match m with
  | Data v => formatValue v fieldName
  | Native name => Normal (nativeSource name)
  end.

(** The value [formatModel] reads for one field. *)
Definition fieldValue (attributes : list (string * value)) (field : string)
  : member :=
  if Str.includes "-" field then memberOf attributes field
  else orMember (memberOf attributes field)
                (memberOf attributes (Str.replaceFirst "_" "-" field)).

(** The element name [formatModel] uses for one field. *)
Definition xmlFieldName (field : string) : string :=
  if Str.includes "-" field then field
  else Str.replaceFirst "-" "_" field.

(** One pass of the [fields.forEach] of [formatModel]: the line pushed. *)
Definition fieldLine (attributes : list (string * value)) (field : string)
  : completion string :=
  let value := fieldValue attributes field in
  match formatMember value field with
  | Normal formattedValue =>
      if (field =? "test") && memberTypeofObject value
      then Normal ("  <test>" ++ formattedValue ++ Str.nl ++ "  </test>")
      else Normal ("  <" ++ xmlFieldName field ++ ">" ++ formattedValue
                   ++ "</" ++ xmlFieldName field ++ ">")
  | Throw e => Throw e
  | Unfinished => Unfinished
  end.

Fixpoint fieldLines (attributes : list (string * value)) (fields : list string)
  : completion (list string) :=
  match fields with
  | [] => Normal []
  | field :: fields' =>
      match fieldLine attributes field with
      | Normal line =>
          match fieldLines attributes fields' with
          | Normal rest => Normal (line :: rest)
          | Throw e => Throw e
          | Unfinished => Unfinished
          end
      | Throw e => Throw e
      | Unfinished => Unfinished
      end
  end.

(** [model.attributes || {}] as an attribute bag.  An array or a string
    has its elements under their indices and its [length].  A bag that
    is not an object is read through these entries and the members of
    [Object.prototype] only: what arrays, strings, numbers and booleans
    inherit from their own library prototypes is not modelled. *)
Definition attributeBag (attributes : value) : list (string * value) :=
  match or_ attributes (VObj []) with
  | VObj kvs => kvs
  | VArr xs =>
      (indexed 0 xs ++ [("length", VNum (Z.of_nat (List.length xs)))])%list
  | VStr s =>
      (indexed 0 (map (fun c => VStr (String c EmptyString))
                      (list_ascii_of_string s))
       ++ [("length", VNum (Z.of_nat (String.length s)))])%list
  | _ => []
  end.

(** [formatModel(model, tagName, fields)]. *)
Definition formatModel (model : value) (tagName : string) (fields : list string)
  : completion string :=
  match getProp model "attributes", getProp model "id" with
  | Normal attributes, Normal id =>
      match fieldLines (attributeBag attributes) fields with
      | Normal lines =>
          Normal (Str.join Str.nl
                    (("<" ++ tagName ++ ">")
                     :: ("  <id>" ++ toStr (or_ id (VStr "")) ++ "</id>")
                     :: lines ++ ["</" ++ tagName ++ ">"]))
      | Throw e => Throw e
      | Unfinished => Unfinished
      end
  | Throw e, _ => Throw e
  | _, Throw e => Throw e
  | _, _ => Unfinished
  end.

(* ================================================================== *)
(** ** createTest and updateTest *)

(** [Object.fromEntries(Object.entries(attributes).map(([k, v]) =>
    [k.replace(/_/g, '-'), v]))]. *)
Definition hyphenateKeys (attributes : list (string * value))
  : list (string * value) :=
  fromEntries (map (fun kv => (Str.replaceAll "_" "-" (fst kv), snd kv))
                   attributes).

(** [{ ...attrs, ...(fields && { 'custom-fields': fields }) }]. *)
Definition withCustomFields (fields : value) (attrs : list (string * value))
  : list (string * value) :=
  if truthy fields then setOwn "custom-fields" fields attrs else attrs.

(** The [requestData] both operations build: [omitted] lists the
    arguments taken out by the destructuring. *)
Definition testRequestData (omitted : list string) (args : list (string * value))
  : value :=
  let suite_id := getOwn "suite_id" args in
  let labels_ids := getOwn "labels_ids" args in
  let fields := getOwn "fields" args in
  let attributes := omit omitted args in
  let data : list (string * value) :=
    ([("type", VStr "tests");
      ("attributes", VObj (withCustomFields fields (hyphenateKeys attributes)))]
    ++ (if truthy suite_id
        then [("relationships",
               VObj [("suite",
                      VObj [("data", VObj [("type", VStr "suites");
                                           ("id", suite_id)])])])]
        else []))%list in
  VObj ([("data", VObj data)]
        ++ (if truthy labels_ids then [("labels_ids", labels_ids)] else []))%list.

Definition createTestData (args : list (string * value)) : value :=
  testRequestData ["suite_id"; "labels_ids"; "fields"] args.

Definition updateTestData (args : list (string * value)) : value :=
  testRequestData ["test_id"; "suite_id"; "labels_ids"; "fields"] args.

Definition testFields : list string :=
  ["title"; "description"; "code"; "priority";
   "state"; "suite-id"; "tags"; "file"].

(** The [tags] attribute of a request body, if it has one. *)
Definition sentTags (requestData : value) : option value :=
  match requestData with
  | VObj top =>
      match getOwn "data" top with
      | VObj data =>
          match getOwn "attributes" data with
          | VObj attrs => lookup "tags" attrs
          | _ => None
          end
      | _ => None
      end
  | _ => None
  end.

Section Tools.

Variable cfg : config.
Variable net : network.

(** [createTest(args)]: the text of the content block returned. *)
Definition createTest (fuel : nat) (args : list (string * value)) : M string :=
  data <- makePostRequest cfg net fuel "/tests" (createTestData args) ;;
  model <- lift (getProp data "data") ;;
  formattedTest <- lift (formatModel model "test" testFields) ;;
  ret ("Successfully created test:" ++ Str.nl ++ Str.nl ++ formattedTest).

(** [updateTest(args)]. *)
Definition updateTest (fuel : nat) (args : list (string * value)) : M string :=
  data <- makePutRequest cfg net fuel
            ("/tests/" ++ toStr (getOwn "test_id" args))
            (updateTestData args) ;;
  model <- lift (getProp data "data") ;;
  formattedTest <- lift (formatModel model "test" testFields) ;;
  ret ("Successfully updated test:" ++ Str.nl ++ Str.nl ++ formattedTest).

End Tools.

(* ================================================================== *)
(** ** Tag utilities *)

Module Tags.

(** A character of a tag token: a letter, a digit, [_] or [-]. *)
Definition isTagChar (c : ascii) : bool :=
  let n := nat_of_ascii c in
  (((48 <=? n) && (n <=? 57)) || ((65 <=? n) && (n <=? 90))
   || ((97 <=? n) && (n <=? 122)) || (n =? 95) || (n =? 45))%nat.

Definition flush (cur : option string) : list string :=
  match cur with
  | Some EmptyString | None => []
  | Some t => [t]
  end.

(** All [@token] runs of a string, left to right: [cur] is the token
    being read, if the scan is behind an [@]. *)
Fixpoint scan (cur : option string) (s : string) : list string :=
  match s with
  | EmptyString => flush cur
  | String c s' =>
      match cur with
      | Some t =>
          if isTagChar c then scan (Some (t ++ String c EmptyString)) s'
          else (flush cur
                ++ (if Ascii.eqb c "@" then scan (Some EmptyString) s'
                    else scan None s'))%list
      | None =>
          if Ascii.eqb c "@" then scan (Some EmptyString) s' else scan None s'
      end
  end.

(** The elements of [xs] not in [seen], each once, in first-seen order. *)
Fixpoint fresh (seen : list string) (xs : list string) : list string :=
  match xs with
  | [] => []
  | x :: xs' =>
      if existsb (String.eqb x) seen then fresh seen xs'
      else x :: fresh (x :: seen) xs'
  end.

(** Modelled from the spec: [extractTagsFromTitle] is not in [index.js];
    only its tests are in the repository.  The [@word] tokens of a title
    (letters, digits, hyphens and underscores; case kept), without
    duplicates, in first-seen order. *)
Definition extractTagsFromTitle (title : string) : list string :=
  fresh [] (scan None title).

Definition stripAt (tag : string) : string :=
  match tag with
  | String c rest => if Ascii.eqb c "@" then rest else tag
  | EmptyString => tag
  end.

(** Modelled from the spec: [mergeTags] is not in [index.js]; only its
    tests are in the repository.  The explicit tags in their order, a
    leading [@] stripped, then the extracted tags not already present. *)
Definition mergeTags (explicitTags titleTags : list string) : list string :=
  let explicit := map stripAt explicitTags in
  (explicit ++ fresh explicit titleTags)%list.

End Tags.

(* ================================================================== *)
(** ** Vocabulary of the properties *)


(** The element name of the children of an array attribute. *)
Definition childTag (fieldName : string) : string :=
  if fieldName =? "tags" then "tag"
  else if fieldName =? "labels" then "label"
  else if fieldName =? "tests-ids" then "test_id"
  else "item".

(** The five characters [escapeXml] replaces. *)
Definition xmlSignificant : list ascii :=
  ["&"; "<"; ">"; Str.dquote; "'"]%char.

(** An error of the login exchange / of a resource call, told apart by
    the message the source builds. *)
Definition isAuthenticationError (e : exn) : bool :=
  match e with
  | Error m => Str.startsWith "Authentication failed: " m
  | _ => false
  end.

Definition isApiRequestError (e : exn) : bool :=
  match e with
  | Error m => Str.startsWith "HTTP " m
  | _ => false
  end.

(** What the three executors do after [authenticate] returned in state
    [st1] and the request [q] was sent: [retry] is the recursive call,
    [failureMessage] the message of the error thrown. *)
Definition afterFetch (net : network) (q : request) (st1 : state)
    (retry : M value) (failureMessage : response -> string)
  : completion value * state :=
  let r := net (List.length (calls st1)) q in
  if ok r then parsed r (logged st1 q)
  else if (status r =? 401)%Z && truthy (jwtToken st1)
       then retry {| jwtToken := VNull; calls := calls st1 ++ [q] |}
       else (Throw (Error (failureMessage r)), logged st1 q).

(* ================================================================== *)
(** ** Remote sides used in the scenarios *)

Module Remote.

Definition loginOk (jwt : string) : response :=
  {| status := 200; statusText := "OK"; text := "";
     json := Some (VObj [("jwt", VStr jwt)]) |}.

Definition okJson (v : value) : response :=
  {| status := 200; statusText := "OK"; text := ""; json := Some v |}.

Definition unauthorized : response :=
  {| status := 401; statusText := "Unauthorized"; text := "";
     json := None |}.

Definition failure (code : Z) (reason body : string) : response :=
  {| status := code; statusText := reason; text := body; json := None |}.

(** Answers in the order given, whatever is asked (the way the unit
    tests queue [mockResolvedValueOnce] answers). *)
Definition scripted (answers : list response) : network :=
  fun n _ => nth n answers (failure 500 "Internal Server Error" "").

(** Accepts every login and rejects every resource call with 401. *)
Definition alwaysUnauthorized : network :=
  fun _ r => if isLogin r then loginOk "fresh" else unauthorized.

(** Accepts every login and answers every resource call the same way. *)
Definition answering (r : response) : network :=
  fun _ q => if isLogin q then loginOk "fresh" else r.

Definition demo : config :=
  {| token := "testomat_test_token_123";
     projectId := "test-project-id";
     baseUrl := "https://test.testomat.io" |}.

(** The body of an empty collection, [{ data: [] }]. *)
Definition emptyCollection : value := VObj [("data", VArr [])].

(** A server object holding a session token. *)
Definition cached (jwt : string) : state :=
  {| jwtToken := VStr jwt; calls := [] |}.

End Remote.

(* ================================================================== *)
(** ** Configuration strings *)

Module Normalize.

(** A white space character of [trim] and of [\s], among the character
    codes below 256: tab, line feed, vertical tab, form feed, carriage
    return, space and no-break space. *)
Definition isSpace (c : ascii) : bool :=
  let n := nat_of_ascii c in
  (((9 <=? n) && (n <=? 13)) || (n =? 32) || (n =? 160))%nat.

Fixpoint trimStart (s : string) : string :=
  match s with
  | EmptyString => EmptyString
  | String c s' => if isSpace c then trimStart s' else s
  end.

Fixpoint trimEnd (s : string) : string :=
  match s with
  | EmptyString => EmptyString
  | String c s' =>
      match trimEnd s' with
      | EmptyString => if isSpace c then EmptyString else String c EmptyString
      | rest => String c rest
      end
  end.

(** [s.trim()]. *)
Definition trim (s : string) : string := trimEnd (trimStart s).

(** [s.replace(/\s+/g, '')]: every run of white space is replaced by
    nothing, so the white space characters are dropped. *)
Fixpoint removeSpaces (s : string) : string :=
  match s with
  | EmptyString => EmptyString
  | String c s' => if isSpace c then removeSpaces s' else String c (removeSpaces s')
  end.

(** [normalizeString(value)]. *)
Definition normalizeString (value : JS.value) : JS.value :=
  match value with
  | VStr s => VStr (trim s)
  | v => v
  end.

(** [normalizeBaseUrl(value)]. *)
Definition normalizeBaseUrl (value : JS.value) : JS.value :=
  match value with
  | VStr s => VStr (removeSpaces (trim s))
  | v => v
  end.

(** A string made of white space only. *)
Fixpoint allSpaces (s : string) : bool :=
  match s with
  | EmptyString => true
  | String c s' => isSpace c && allSpaces s'
  end.

(** A string with a white space character somewhere. *)
Fixpoint hasSpace (s : string) : bool :=
  match s with
  | EmptyString => false
  | String c s' => isSpace c || hasSpace s'
  end.

Definition firstChar (s : string) : option ascii :=
  match s with
  | EmptyString => None
  | String c _ => Some c
  end.

Fixpoint lastChar (s : string) : option ascii :=
  match s with
  | EmptyString => None
  | String c EmptyString => Some c
  | String _ s' => lastChar s'
  end.

Definition isSpaceOpt (c : option ascii) : bool :=
  match c with
  | Some c => isSpace c
  | None => false
  end.

End Normalize.

(* ================================================================== *)
(** ** Search parameters and their description *)

(** [Object.entries(v)]. *)
Definition objectEntries (v : value) : completion (list (string * value)) :=
  match v with
  | VObj kvs => Normal kvs
  | VArr xs => Normal (indexed 0 xs)
  | VStr s =>
      Normal (indexed 0 (map (fun c => VStr (String c EmptyString))
                             (list_ascii_of_string s)))
  | VUndefined | VNull =>
      Throw (TypeError "Cannot convert undefined or null to object")
  | _ => Normal []
  end.

(** A default parameter [p = {}]. *)
Definition orEmptyObject (v : value) : value :=
  match v with
  | VUndefined => VObj []
  | _ => v
  end.

(** The body of the [value.forEach] loops of [buildSearchParams]: one
    element is added under [paramKey]. *)
Definition pushParam (paramKey : string) (v : value)
    (params : list (string * value)) : list (string * value) :=
  let params1 :=
    if truthy (getOwn paramKey params) then params
    else setOwn paramKey (VArr []) params in
  match getOwn paramKey params1 with
  | VArr xs => setOwn paramKey (VArr (xs ++ [v])) params1
  | other => setOwn paramKey (VArr [other; v]) params1
  end.

(** [params[key] = text]: under the name [__proto__] an assignment of a
    string reaches the inherited setter, which ignores it. *)
Definition assignParam (key text : string) (params : list (string * value))
  : list (string * value) :=
  if key =? "__proto__" then params else setOwn key (VStr text) params.

(** The entries of a [filter] value: it is an array or an object here. *)
Definition filterEntries (v : value) : list (string * value) :=
  match objectEntries v with
  | Normal kvs => kvs
  | _ => []
  end.

(** One pass of the [forEach] over [Object.entries(filters)]. *)
Definition buildParam (params : list (string * value)) (kv : string * value)
  : list (string * value) :=
  let key := fst kv in
  match snd kv with
  | VUndefined | VNull => params
  | VArr items =>
      if key =? "labels" then
        fold_left (fun p label => pushParam "labels[]" label p) items params
      else if key =? "filter" then
        fold_left (fun p fkv => setOwn ("filter[" ++ fst fkv ++ "]") (snd fkv) p)
                  (filterEntries (VArr items)) params
      else
        fold_left (fun p v => pushParam (key ++ "[]") v p) items params
  | VObj entries =>
      if key =? "filter" then
        fold_left (fun p fkv => setOwn ("filter[" ++ fst fkv ++ "]") (snd fkv) p)
                  entries params
      else assignParam key (toStr (VObj entries)) params
  | v => assignParam key (toStr v) params
  end.

(** [buildSearchParams(filters)] on the entries of [filters]. *)
Definition buildSearchParams (filters : list (string * value))
  : list (string * value) :=
  fold_left buildParam filters [].

Definition isUpper (c : ascii) : bool :=
  let n := nat_of_ascii c in ((65 <=? n) && (n <=? 90))%nat.

Definition isDigit (c : ascii) : bool :=
  let n := nat_of_ascii c in ((48 <=? n) && (n <=? 57))%nat.

(** One or more digits, up to the end. *)
Fixpoint digits1 (s : string) : bool :=
  match s with
  | EmptyString => false
  | String c EmptyString => isDigit c
  | String c s' => isDigit c && digits1 s'
  end.

(** [/^[A-Z]+-\d+$/] from a position behind [seen] capitals. *)
Fixpoint issueKeyFrom (seen : bool) (s : string) : bool :=
  match s with
  | EmptyString => false
  | String c s' =>
      if isUpper c then issueKeyFrom true s'
      else Ascii.eqb c "-" && seen && digits1 s'
  end.

(** [s.match(/^[A-Z]+-\d+$/)] finds a match. *)
Definition isIssueKey (s : string) : bool := issueKeyFrom false s.

Definition quoted (s : string) : string :=
  String Str.dquote s ++ String Str.dquote EmptyString.

Section Description.

(** Whether the number a string converts to is greater than zero.  The
    numeric reading of strings is not modelled; it is only consulted for
    a [labels] object that carries a [length] entry of its own. *)
Variable positiveNumeric : string -> bool.

(** [v > 0]. *)
Definition greaterThanZero (v : value) : bool :=
  match v with
  | VUndefined | VNull => false
  | VBool b => b
  | VNum n => (0 <? n)%Z
  | VStr s => positiveNumeric s
  | VArr xs => positiveNumeric (toStr (VArr xs))
  | VObj _ => false
  end.

(** The [query] part of [buildSearchDescription]. *)
Definition describeQuery (query : value) : completion (list string) :=
  if truthy query then
    match query with
    | VStr q =>
        if Str.startsWith "@" q then Normal ["tagged with " ++ quoted q]
        else if isIssueKey q then Normal ["linked to Jira issue " ++ quoted q]
        else Normal ["containing " ++ quoted q]
    | _ => Throw (TypeError "filters.query.startsWith is not a function")
    end
  else Normal [].

(** The [labels] part. *)
Definition describeLabels (labels : value) : completion (list string) :=
  if truthy labels then
    match labels with
    | VArr xs =>
        if (0 <? List.length xs)%nat
        then Normal ["with labels: "
                     ++ Str.join ", "
                          (map (fun x => match x with
                                         | VUndefined | VNull => ""
                                         | _ => toStr x
                                         end) xs)]
        else Normal []
    | VStr _ => Throw (TypeError "filters.labels.join is not a function")
    | VObj kvs =>
        if greaterThanZero (getOwn "length" kvs)
        then Throw (TypeError "filters.labels.join is not a function")
        else Normal []
    | _ => Normal []
    end
  else Normal [].

(** A part that is shown as it is when truthy. *)
Definition describePlain (label : string) (v : value) : list string :=
  if truthy v then [label ++ toStr v] else [].

(** The [filter] part. *)
Definition describeFilter (filter : value) : list string :=
  if truthy filter && typeofObject filter then
    ["filtered by: "
     ++ Str.join ", "
          (map (fun kv => fst kv ++ ": " ++ toStr (snd kv))
               (filterEntries filter))]
  else [].

(** [buildSearchDescription(filters)]. *)
Definition buildSearchDescription (filters : value) : completion string :=
  match getProp filters "query" with
  | Throw e => Throw e
  | Unfinished => Unfinished
  | Normal query =>
      match describeQuery query with
      | Throw e => Throw e
      | Unfinished => Unfinished
      | Normal dQuery =>
          let dTql :=
            match getProp filters "tql" with
            | Normal tql =>
                if truthy tql then ["matching TQL: " ++ quoted (toStr tql)]
                else []
            | _ => []
            end in
          match getProp filters "labels" with
          | Throw e => Throw e
          | Unfinished => Unfinished
          | Normal labels =>
              match describeLabels labels with
              | Throw e => Throw e
              | Unfinished => Unfinished
              | Normal dLabels =>
                  let prop k :=
                    match getProp filters k with
                    | Normal v => v
                    | _ => VUndefined
                    end in
                  let descriptions :=
                    (dQuery ++ dTql ++ dLabels
                     ++ describePlain "state: " (prop "state")
                     ++ describePlain "priority: " (prop "priority")
                     ++ describeFilter (prop "filter"))%list in
                  match descriptions with
                  | [] => Normal ""
                  | _ => Normal (" (" ++ Str.join ", " descriptions ++ ")")
                  end
              end
          end
      end
  end.

End Description.

(* ================================================================== *)
(** ** Tool operations *)

Definition suiteFields : list string :=
  ["title"; "description"; "test-count"; "is-root"; "file-type"].

Definition runFields : list string :=
  ["status"; "title"; "tests-count"; "automated"; "duration";
   "passed"; "failed"; "skipped"; "created-at"; "finished-at"].

Definition testrunFields : list string :=
  ["status"; "run-time"; "message"; "run-id"; "test"].

Definition planFields : list string :=
  ["title"; "test-count"; "kind"; "created-at"; "tests-ids"; "labels"].

Definition labelFields : list string :=
  ["title"; "color"; "scope"; "visibility"; "field"].

(** [items.map(x => this.formatModel(x, tagName, fields))]. *)
Fixpoint mapFormat (items : list value) (tagName : string)
    (fields : list string) : completion (list string) :=
  match items with
  | [] => Normal []
  | x :: items' =>
      match formatModel x tagName fields with
      | Normal s =>
          match mapFormat items' tagName fields with
          | Normal rest => Normal (s :: rest)
          | Throw e => Throw e
          | Unfinished => Unfinished
          end
      | Throw e => Throw e
      | Unfinished => Unfinished
      end
  end.

(** [v.map(x => this.formatModel(x, tagName, fields)).join('\n\n')]. *)
Definition formatAll (v : value) (tagName : string) (fields : list string)
  : completion string :=
  match v with
  | VArr items =>
      match mapFormat items tagName fields with
      | Normal parts => Normal (Str.join (Str.nl ++ Str.nl) parts)
      | Throw e => Throw e
      | Unfinished => Unfinished
      end
  | VUndefined | VNull =>
      Throw (TypeError
               "Cannot read properties of null or undefined (reading 'map')")
  | _ => Throw (TypeError "map is not a function")
  end.

(** [data.data.map(...).join('\n\n')]. *)
Definition formatCollection (data : value) (tagName : string)
    (fields : list string) : completion string :=
  match getProp data "data" with
  | Normal items => formatAll items tagName fields
  | Throw e => Throw e
  | Unfinished => Unfinished
  end.

(** [v?.k]. *)
Definition optionalProp (v : value) (k : string) : value :=
  match v with
  | VObj kvs => getOwn k kvs
  | _ => VUndefined
  end.

(** [s || fallback] on strings. *)
Definition orElse (s fallback : string) : string :=
  if s =? "" then fallback else s.

(** The [requestData] of [createSuite] and [createFolder]. *)
Definition suiteRequestData (fileType : string) (args : list (string * value))
  : value :=
  let parent_id := getOwn "parent_id" args in
  let fields := getOwn "fields" args in
  let attributes := omit ["parent_id"; "fields"] args in
  let data : list (string * value) :=
    ([("type", VStr "suites");
      ("attributes",
       VObj (withCustomFields fields
               (setOwn "file-type" (VStr fileType) (hyphenateKeys attributes))))]
     ++ (if truthy parent_id
         then [("relationships",
                VObj [("parent",
                       VObj [("data", VObj [("type", VStr "suites");
                                            ("id", parent_id)])])])]
         else []))%list in
  VObj [("data", VObj data)].

(** The [field] object [createLabel] sends. *)
Definition labelField (field : value) : value :=
  let prop k := optionalProp field k in
  VObj ([("type", prop "type")]
        ++ (match prop "short" with
            | VUndefined => []
            | short => [("short", short)]
            end)
        ++ (if truthy (prop "value") then [("value", prop "value")] else []))%list.

(** The [requestData] of [createLabel]. *)
Definition labelRequestData (args : list (string * value)) : value :=
  let field := getOwn "field" args in
  let otherAttributes :=
    omit ["title"; "color"; "scope"; "visibility"; "field"] args in
  let attributes :=
    setOwn "visibility" (getOwn "visibility" args)
      (setOwn "scope" (getOwn "scope" args)
         (setOwn "color" (getOwn "color" args)
            (setOwn "title" (getOwn "title" args)
               (hyphenateKeys otherAttributes)))) in
  let attributes' :=
    if truthy field then setOwn "field" (labelField field) attributes
    else attributes in
  VObj [("data", VObj [("type", VStr "labels");
                       ("attributes", VObj attributes')])].


Section Operations.

Variable cfg : config.
Variable net : network.
Variable positiveNumeric : string -> bool.

(** [makeRequest(path, params)] when [params] is not known to be an
    object: [Object.entries(params)] is evaluated after [authenticate]. *)
Definition makeRequestWith (fuel : nat) (path : string) (params : value)
  : M value :=
  match objectEntries (orEmptyObject params) with
  | Normal entries => makeRequest cfg net fuel path entries
  | Throw e =>
      match fuel with
      | O => unfinished
      | S _ => authenticate cfg net ;;; throw e
      end
  | Unfinished => unfinished
  end.

Definition getTests (fuel : nat) (filters : value) : M string :=
  entries <- lift (objectEntries (orEmptyObject filters)) ;;
  data <- makeRequest cfg net fuel "/tests" (buildSearchParams entries) ;;
  formattedTests <- lift (formatCollection data "test" testFields) ;;
  ret ("Tests for project " ++ projectId cfg ++ ":" ++ Str.nl ++ Str.nl
       ++ formattedTests).

Definition searchTests (fuel : nat) (filters : value) : M string :=
  entries <- lift (objectEntries (orEmptyObject filters)) ;;
  data <- makeRequest cfg net fuel "/tests" (buildSearchParams entries) ;;
  formattedTests <- lift (formatCollection data "test" testFields) ;;
  searchDescription <-
    lift (buildSearchDescription positiveNumeric (orEmptyObject filters)) ;;
  ret ("Search results for tests" ++ searchDescription ++ ":"
       ++ Str.nl ++ Str.nl
       ++ orElse formattedTests "No tests found matching the criteria.").

(** [{ ...filters, filter: true }]. *)
Definition withFilterTrue (filters : value) : list (string * value) :=
  setOwn "filter" (VBool true)
    (match objectEntries filters with
     | Normal entries => entries
     | _ => []
     end).

Definition searchSuites (fuel : nat) (filters : value) : M string :=
  data <- makeRequest cfg net fuel "/suites"
            (buildSearchParams (withFilterTrue (orEmptyObject filters))) ;;
  formattedSuites <- lift (formatCollection data "suite" suiteFields) ;;
  searchDescription <-
    lift (buildSearchDescription positiveNumeric (orEmptyObject filters)) ;;
  ret ("Search results for suites" ++ searchDescription ++ ":"
       ++ Str.nl ++ Str.nl
       ++ orElse formattedSuites "No suites found matching the criteria.").

Definition getRootSuites (fuel : nat) : M string :=
  data <- makeRequest cfg net fuel "/suites" [] ;;
  formattedSuites <- lift (formatCollection data "suite" suiteFields) ;;
  ret ("Root suites for project " ++ projectId cfg ++ ":" ++ Str.nl ++ Str.nl
       ++ formattedSuites).

(** One of the two optional sections of [getSuite]. *)
Definition childSection (relationships : value) (name heading tagName : string)
    (fields : list string) : completion string :=
  let items := optionalProp (optionalProp relationships name) "data" in
  if truthy items then
    match formatAll items tagName fields with
    | Normal s =>
        if s =? "" then Normal ""
        else Normal (Str.nl ++ Str.nl ++ heading ++ Str.nl ++ s)
    | Throw e => Throw e
    | Unfinished => Unfinished
    end
  else Normal "".

Definition getSuite (fuel : nat) (suiteId : value) : M string :=
  data <- makeRequest cfg net fuel ("/suites/" ++ toStr suiteId) [] ;;
  model <- lift (getProp data "data") ;;
  formattedSuite <- lift (formatModel model "suite" suiteFields) ;;
  relationships <- lift (getProp model "relationships") ;;
  children <- lift (childSection relationships "children" "Child Suites:"
                      "suite" suiteFields) ;;
  tests <- lift (childSection relationships "tests" "Tests:"
                   "test" testFields) ;;
  ret ("Suite " ++ toStr suiteId ++ ":" ++ Str.nl ++ Str.nl
       ++ formattedSuite ++ children ++ tests).

Definition getRuns (fuel : nat) : M string :=
  data <- makeRequest cfg net fuel "/runs" [] ;;
  formattedRuns <- lift (formatCollection data "run" runFields) ;;
  ret ("Test runs for project " ++ projectId cfg ++ ":" ++ Str.nl ++ Str.nl
       ++ formattedRuns).

Definition getRun (fuel : nat) (runId tree : value) : M string :=
  data <- makeRequest cfg net fuel ("/runs/" ++ toStr runId)
            (if truthy tree then [("tree", VStr "true")] else []) ;;
  model <- lift (getProp data "data") ;;
  formattedRun <- lift (formatModel model "run" runFields) ;;
  ret ("Test run " ++ toStr runId ++ ":" ++ Str.nl ++ Str.nl ++ formattedRun).

Definition getTestruns (fuel : nat) (testId dateRange : value) : M string :=
  data <- makeRequest cfg net fuel "/testruns"
            (("test_id", testId)
             :: (if truthy dateRange
                 then [("finished_at_date_range", dateRange)] else [])) ;;
  formattedTestruns <- lift (formatCollection data "testrun" testrunFields) ;;
  ret ("Test runs for test " ++ toStr testId ++ ":" ++ Str.nl ++ Str.nl
       ++ formattedTestruns).

Definition getPlans (fuel : nat) (filters : value) : M string :=
  data <- makeRequestWith fuel "/plans" filters ;;
  formattedPlans <- lift (formatCollection data "plan" planFields) ;;
  ret ("Test plans for project " ++ projectId cfg ++ ":" ++ Str.nl ++ Str.nl
       ++ formattedPlans).

Definition getPlan (fuel : nat) (planId : value) : M string :=
  data <- makeRequest cfg net fuel ("/plans/" ++ toStr planId) [] ;;
  model <- lift (getProp data "data") ;;
  formattedPlan <- lift (formatModel model "plan" planFields) ;;
  ret ("Test plan " ++ toStr planId ++ ":" ++ Str.nl ++ Str.nl
       ++ formattedPlan).

(** [createSuite] and [createFolder] differ in the file type and in the
    heading. *)
Definition createSuiteAs (fileType heading : string) (fuel : nat)
    (args : list (string * value)) : M string :=
  data <- makePostRequest cfg net fuel "/suites"
            (suiteRequestData fileType args) ;;
  model <- lift (getProp data "data") ;;
  formattedSuite <- lift (formatModel model "suite" suiteFields) ;;
  ret (heading ++ Str.nl ++ Str.nl ++ formattedSuite).

Definition createSuite : nat -> list (string * value) -> M string :=
  createSuiteAs "file" "Successfully created suite:".

Definition createFolder : nat -> list (string * value) -> M string :=
  createSuiteAs "folder" "Successfully created folder:".

Definition createLabel (fuel : nat) (args : list (string * value)) : M string :=
  data <- makePostRequest cfg net fuel "/labels" (labelRequestData args) ;;
  model <- lift (getProp data "data") ;;
  formattedLabel <- lift (formatModel model "label" labelFields) ;;
  ret ("Successfully created label:" ++ Str.nl ++ Str.nl ++ formattedLabel).

(** The [switch] of the tool-call handler. *)
Definition dispatch (fuel : nat) (name : string) (args : value) : M string :=
  if name =? "get_tests" then getTests fuel args
  else if name =? "search_tests" then searchTests fuel args
  else if name =? "search_suites" then searchSuites fuel args
  else if name =? "get_root_suites" then getRootSuites fuel
  else if name =? "get_suite" then
    suite_id <- lift (getProp args "suite_id") ;; getSuite fuel suite_id
  else if name =? "get_runs" then getRuns fuel
  else if name =? "get_run" then
    run_id <- lift (getProp args "run_id") ;;
    tree <- lift (getProp args "tree") ;;
    getRun fuel run_id tree
  else if name =? "get_testruns" then
    test_id <- lift (getProp args "test_id") ;;
    range <- lift (getProp args "finished_at_date_range") ;;
    getTestruns fuel test_id range
  else if name =? "get_plans" then getPlans fuel args
  else if name =? "get_plan" then
    plan_id <- lift (getProp args "plan_id") ;; getPlan fuel plan_id
  else if name =? "create_test" then
    entries <- lift (objectEntries args) ;; createTest cfg net fuel entries
  else if name =? "update_test" then
    entries <- lift (objectEntries args) ;; updateTest cfg net fuel entries
  else if name =? "create_suite" then
    entries <- lift (objectEntries args) ;; createSuite fuel entries
  else if name =? "create_folder" then
    entries <- lift (objectEntries args) ;; createFolder fuel entries
  else if name =? "create_label" then
    entries <- lift (objectEntries args) ;; createLabel fuel entries
  else throw (Error ("Unknown tool: " ++ name)).

(** The tool-call handler: the text of the content block it returns. *)
Definition callTool (fuel : nat) (name : string) (args : value) : M string :=
  fun st =>
    match dispatch fuel name args st with
    | (Throw e, st') => (Normal ("Error: " ++ message e), st')
    | outcome => outcome
    end.

End Operations.

(* ================================================================== *)
(** ** Further vocabulary *)

(** The slot holds nothing or a usable token. *)
Definition slotOk (st : state) : bool :=
  match jwtToken st with
  | VNull => true
  | v => truthy v
  end.

(** A method only adds to the log of network calls. *)
Definition logGrows {A : Type} (m : M A) : Prop :=
  forall st, exists extra, calls (snd (m st)) = (calls st ++ extra)%list.





(** The parameter names one entry of [filters] can write to. *)
Definition writtenKeys (kv : string * value) : list string :=
  match snd kv with
  | VUndefined | VNull => []
  | VArr items =>
      if fst kv =? "labels" then ["labels[]"]
      else if fst kv =? "filter"
           then map (fun fkv => "filter[" ++ fst fkv ++ "]") (indexed 0 items)
           else [fst kv ++ "[]"]
  | VObj entries =>
      if fst kv =? "filter"
      then map (fun fkv => "filter[" ++ fst fkv ++ "]") entries
      else [fst kv]
  | _ => [fst kv]
  end.

(** Every character of a string passes a test. *)
Fixpoint allChars (p : ascii -> bool) (s : string) : bool :=
  match s with
  | EmptyString => true
  | String c s' => p c && allChars p s'
  end.

(** A value an entry of [filters] is skipped for. *)
Definition nullish (v : value) : bool :=
  match v with
  | VUndefined | VNull => true
  | _ => false
  end.

(** The names the tool-call handler knows. *)
Definition toolNames : list string :=
  ["get_tests"; "search_tests"; "search_suites"; "get_root_suites";
   "get_suite"; "get_runs"; "get_run"; "get_testruns"; "get_plans";
   "get_plan"; "create_test"; "update_test"; "create_suite";
   "create_folder"; "create_label"].

(** A string with one of the four characters that [escapeXml] replaces
    and that are not the ampersand. *)
Definition hasRawMarkup (s : string) : bool :=
  Str.includes "<" s || Str.includes ">" s
  || Str.includes (String Str.dquote EmptyString) s || Str.includes "'" s.

(** A string with one of the five characters in it. *)
Definition hasXmlSignificant (s : string) : bool :=
  Str.includes "&" s || hasRawMarkup s.

(* ================================================================== *)
(** * Properties *)

(** ** String primitives *)

Section StrFacts.

Import Str.

Lemma append_empty_r (s : string) : s ++ "" = s.
Proof. induction s as [|c s IH]; simpl; [reflexivity | now rewrite IH]. Qed.

Lemma append_assoc (a b c : string) : (a ++ b) ++ c = a ++ (b ++ c).
Proof. induction a as [|x a IH]; simpl; [reflexivity | now rewrite IH]. Qed.

Lemma flatMap_app (f : ascii -> string) (a b : string) :
  flatMap f (a ++ b) = flatMap f a ++ flatMap f b.
Proof.
  induction a as [|x a IH]; simpl; [reflexivity|].
  now rewrite IH, append_assoc.
Qed.

Lemma flatMap_ext (f g : ascii -> string) (s : string) :
  (forall c, f c = g c) -> flatMap f s = flatMap g s.
Proof.
  intros E; induction s as [|x s IH]; simpl; [reflexivity|].
  now rewrite E, IH.
Qed.

Lemma flatMap_flatMap (f g : ascii -> string) (s : string) :
  flatMap g (flatMap f s) = flatMap (fun c => flatMap g (f c)) s.
Proof.
  induction s as [|x s IH]; simpl; [reflexivity|].
  now rewrite flatMap_app, IH.
Qed.

Lemma flatMap_single (s : string) :
  flatMap (fun c => String c "") s = s.
Proof. induction s as [|x s IH]; simpl; [reflexivity | now rewrite IH]. Qed.

(** A global replace of a single character is a character-wise
    substitution. *)
Lemma replaceAll_char (c : ascii) (rep s : string) :
  replaceAll (String c "") rep s =
  flatMap (fun x => if Ascii.eqb c x then rep else String x "") s.
Proof.
  unfold replaceAll.
  induction s as [|x s IH]; simpl; [reflexivity|].
  rewrite andb_true_r.
  destruct (Ascii.eqb c x); simpl; now rewrite IH.
Qed.

(** A string without the pattern is left alone by both replacements. *)
Lemma replaceFirst_absent (pat rep s : string) :
  includes pat s = false -> replaceFirst pat rep s = s.
Proof.
  induction s as [|x s IH]; simpl.
  - destruct pat; simpl; [discriminate | reflexivity].
  - intros H. apply orb_false_iff in H. destruct H as [H1 H2].
    rewrite H1. now rewrite IH.
Qed.


(** A global replace over a token stream, when the scan of each token
    [f x] ends at the token's end. *)
Lemma replaceAll_tokens (pat rep : string) (f g : ascii -> string) :
  (forall x rest,
     replaceAllFrom pat rep 0 (f x ++ rest) =
     g x ++ replaceAllFrom pat rep 0 rest) ->
  forall s, replaceAll pat rep (flatMap f s) = flatMap g s.
Proof.
  intros step s. unfold replaceAll.
  induction s as [|x s IH]; simpl; [reflexivity|].
  now rewrite step, IH.
Qed.

End StrFacts.

(** ** escapeXml *)

Section EscapeFacts.

Import Str.

Ltac by_character x := destruct x as [[] [] [] [] [] [] [] []]; reflexivity.

Lemma escapeXmlString_flatMap (s : string) :
  escapeXmlString s = flatMap escapeChar s.
Proof.
  unfold escapeXmlString.
  rewrite !replaceAll_char, !flatMap_flatMap.
  apply flatMap_ext.
  intros c. by_character c.
Qed.

Lemma escapeOnly_all (c : ascii) :
  escapeChar c = escapeOnly xmlSignificant c.
Proof. by_character c. Qed.

Lemma escapeOnly_none (c : ascii) : escapeOnly [] c = String c "".
Proof. reflexivity. Qed.

(** The five passes of the reverse substitution, each undoing one
    entity and leaving the others in place. *)
Lemma undo_apos (s : string) :
  replaceAll "&#39;" "'" (flatMap (escapeOnly ["&"; "<"; ">"; dquote; "'"]%char) s)
  = flatMap (escapeOnly ["&"; "<"; ">"; dquote]%char) s.
Proof. apply replaceAll_tokens. intros x rest. by_character x. Qed.

Lemma undo_quot (s : string) :
  replaceAll "&quot;" (String dquote "")
    (flatMap (escapeOnly ["&"; "<"; ">"; dquote]%char) s)
  = flatMap (escapeOnly ["&"; "<"; ">"]%char) s.
Proof. apply replaceAll_tokens. intros x rest. by_character x. Qed.

Lemma undo_gt (s : string) :
  replaceAll "&gt;" ">" (flatMap (escapeOnly ["&"; "<"; ">"]%char) s)
  = flatMap (escapeOnly ["&"; "<"]%char) s.
Proof. apply replaceAll_tokens. intros x rest. by_character x. Qed.

Lemma undo_lt (s : string) :
  replaceAll "&lt;" "<" (flatMap (escapeOnly ["&"; "<"]%char) s)
  = flatMap (escapeOnly ["&"]%char) s.
Proof. apply replaceAll_tokens. intros x rest. by_character x. Qed.

Lemma undo_amp (s : string) :
  replaceAll "&amp;" "&" (flatMap (escapeOnly ["&"]%char) s)
  = flatMap (escapeOnly []) s.
Proof. apply replaceAll_tokens. intros x rest. by_character x. Qed.

Lemma unescape_escape (s : string) :
  unescapeXmlString (escapeXmlString s) = s.
Proof.
  rewrite escapeXmlString_flatMap.
  rewrite (flatMap_ext _ _ s escapeOnly_all).
  unfold unescapeXmlString, xmlSignificant.
  rewrite undo_apos, undo_quot, undo_gt, undo_lt, undo_amp.
  rewrite (flatMap_ext _ _ s escapeOnly_none).
  apply flatMap_single.
Qed.

Lemma escapeChar_changes (c : ascii) :
  escapeChar c <> String c "" <-> In c xmlSignificant.
Proof.
  destruct c as [[] [] [] [] [] [] [] []]; simpl;
    (split; [ intros H; try (exfalso; apply H; reflexivity); tauto
            | intros H; try discriminate;
              repeat (destruct H as [H|H]; try discriminate H); contradiction ]).
Qed.

Example escapeXmlString_sample :
  escapeXmlString ("a<b & " ++ String dquote "c" ++ String dquote " > 'd'") =
  "a&lt;b &amp; &quot;c&quot; &gt; &#39;d&#39;".
Proof. reflexivity. Qed.

Example unescapeXmlString_sample :
  unescapeXmlString "a&lt;b &amp; &quot;c&quot; &gt; &#39;d&#39; &amp;lt;" =
  "a<b & " ++ String dquote "c" ++ String dquote " > 'd' &lt;".
Proof. reflexivity. Qed.

(** C4.  On every string [escapeXml] substitutes, character by character,
    an entity for exactly the five characters of [xmlSignificant] (the ampersand
    pass runs first, so the [&] of an entity is never escaped again), and
    the reverse substitution of the five entities gives the original
    string back. *)
Theorem escapeXml_five_entities_roundtrip (s : string) :
  escapeXml (VStr s) = VStr (flatMap escapeChar s)
  /\ (forall c, escapeChar c <> String c "" <-> In c xmlSignificant)
  /\ escapeXmlString "<" = "&lt;"
  /\ unescapeXmlString (toStr (escapeXml (VStr s))) = s.
Proof.
  simpl. rewrite unescape_escape, escapeXmlString_flatMap.
  repeat split; try apply escapeChar_changes.
Qed.

End EscapeFacts.

(** ** The formatter *)

Section FormatFacts.

Import Str.











(** C6.  An array value is rendered as one child element per item, in
    order, with nothing around them; the children are named [tag] under
    the field [tags], [label] under [labels], [test_id] under
    [tests-ids] and [item] under any other field. *)
Theorem formatValue_array_children (items : list value) (fieldName : string) :
  formatValue (VArr items) fieldName =
    Normal (join ""
              (map (fun x => "<" ++ childTag fieldName ++ ">"
                             ++ toStr (if fieldName =? "tests-ids" then x
                                       else escapeXml x)
                             ++ "</" ++ childTag fieldName ++ ">") items))
  /\ formatValue (VArr [VStr "smoke"; VStr "regression"]) "tags"
     = Normal "<tag>smoke</tag><tag>regression</tag>"
  /\ formatModel
       (VObj [("id", VStr "1");
              ("attributes",
               VObj [("tags", VArr [VStr "smoke"; VStr "regression"])])])
       "test" ["tags"]
     = Normal ("<test>" ++ nl ++ "  <id>1</id>" ++ nl
               ++ "  <tags><tag>smoke</tag><tag>regression</tag></tags>"
               ++ nl ++ "</test>").
Proof.
  split; [|split; reflexivity].
  unfold childTag. simpl.
  destruct (String.eqb_spec fieldName "tags") as [->|N1]; [reflexivity|].
  destruct (String.eqb_spec fieldName "labels") as [->|N2]; [reflexivity|].
  destruct (String.eqb_spec fieldName "tests-ids") as [->|N3]; reflexivity.
Qed.

(** C10.  The items of an array under [tests-ids] go into their
    [test_id] elements as they are: a string item keeps its
    markup-significant characters, which the same item under [tags],
    [labels] or any other field has replaced by entities. *)
Theorem formatValue_tests_ids_verbatim (s : string) :
  formatValue (VArr [VStr s]) "tests-ids"
    = Normal ("<test_id>" ++ s ++ "</test_id>")
  /\ formatValue (VArr [VStr s]) "tags"
     = Normal ("<tag>" ++ escapeXmlString s ++ "</tag>")
  /\ formatValue (VArr [VStr s]) "labels"
     = Normal ("<label>" ++ escapeXmlString s ++ "</label>")
  /\ formatValue (VArr [VStr s]) "steps"
     = Normal ("<item>" ++ escapeXmlString s ++ "</item>")
  /\ formatValue (VArr [VStr "a<b>&c"]) "tests-ids"
     = Normal "<test_id>a<b>&c</test_id>"
  /\ formatValue (VArr [VStr "a<b>&c"]) "tags"
     = Normal "<tag>a&lt;b&gt;&amp;c</tag>".
Proof. repeat split; reflexivity. Qed.

End FormatFacts.

(** ** authenticate *)

Section AuthFacts.

Variable cfg : config.
Variable net : network.

(** [authenticate], path by path. *)
Lemma authenticate_eq (st : state) :
  authenticate cfg net st =
  if truthy (jwtToken st) then (Normal (jwtToken st), st)
  else
    let r := net (List.length (calls st)) (loginRequest cfg) in
    let st' := logged st (loginRequest cfg) in
    if negb (ok r) then
      (Throw (Error ("Authentication failed: HTTP "
                     ++ string_of_Z (status r) ++ ": "
                     ++ statusText r ++ ". Response: " ++ text r)), st')
    else
      match json r with
      | None => (Throw (SyntaxError "Unexpected token in JSON"), st')
      | Some data =>
          match getProp data "jwt" with
          | Normal jwt =>
              if negb (truthy jwt) then
                (Throw (Error
                   "Authentication failed: No JWT token received in response"),
                 st')
              else (Normal jwt, {| jwtToken := jwt; calls := calls st' |})
          | Throw e => (Throw e, st')
          | Unfinished => (Unfinished, st')
          end
      end.
Proof.
  unfold authenticate, bind, getToken, fetch, parsed, lift, setToken, ret,
    throw, logged.
  destruct (truthy (jwtToken st)); [reflexivity|].
  simpl.
  destruct (negb (ok (net (List.length (calls st)) (loginRequest cfg))));
    [reflexivity|].
  destruct (json (net (List.length (calls st)) (loginRequest cfg)))
    as [data|]; [|reflexivity].
  simpl.
  destruct (getProp data "jwt") as [jwt|e|]; [|reflexivity|reflexivity].
  destruct (negb (truthy jwt)); reflexivity.
Qed.

(** With a token in the slot nothing is fetched. *)
Lemma authenticate_cached (st : state) :
  truthy (jwtToken st) = true ->
  authenticate cfg net st = (Normal (jwtToken st), st).
Proof. intros H. now rewrite authenticate_eq, H. Qed.

(** Whenever [authenticate] returns, the slot holds what it returned,
    and that is truthy. *)
Lemma authenticate_returns (st st1 : state) (t : value) :
  authenticate cfg net st = (Normal t, st1) ->
  t = jwtToken st1 /\ truthy t = true
  /\ (if truthy (jwtToken st) then st1 = st
      else calls st1 = (calls st ++ [loginRequest cfg])%list).
Proof.
  rewrite authenticate_eq.
  destruct (truthy (jwtToken st)) eqn:E.
  - intros H. inversion H; subst. auto.
  - cbv zeta.
    destruct (negb (ok _)); [discriminate|].
    destruct (json _) as [data|]; [|discriminate].
    destruct (getProp data "jwt") as [jwt|e|]; try discriminate.
    destruct (truthy jwt) eqn:T; simpl; [|discriminate].
    intros H. inversion H; subst. simpl. auto.
Qed.

(** C3.  When [authenticate] returns, a second call returns the same
    value and leaves the state, and with it the log of network calls, as
    it is.  The first call made no network call if a token was cached,
    and exactly one if the slot was empty. *)
Theorem authenticate_twice_one_call (st st1 : state) (t : value) :
  authenticate cfg net st = (Normal t, st1) ->
  authenticate cfg net st1 = (Normal t, st1)
  /\ (if truthy (jwtToken st)
      then st1 = st /\ t = jwtToken st
      else List.length (calls st1) = S (List.length (calls st))).
Proof.
  intros H. destruct (authenticate_returns _ _ _ H) as (Ht & Tt & Hc).
  split.
  - rewrite authenticate_cached; rewrite <- Ht; [reflexivity | exact Tt].
  - destruct (truthy (jwtToken st)).
    + subst. auto.
    + rewrite Hc, length_app. simpl. lia.
Qed.

(** X28.  With an empty slot, a login answered with a success status and
    a JSON body on which reading [jwt] gives [undefined] (an object
    without that key, or a number, string, boolean or array) makes
    [authenticate] throw the "no token received" authentication error;
    the slot is as it was.  The body [null] is not such a body. *)
Theorem authenticate_missing_token (st : state) (data : value) :
  truthy (jwtToken st) = false ->
  ok (net (List.length (calls st)) (loginRequest cfg)) = true ->
  json (net (List.length (calls st)) (loginRequest cfg)) = Some data ->
  getProp data "jwt" = Normal VUndefined ->
  exists e st',
    authenticate cfg net st = (Throw e, st')
    /\ e = Error "Authentication failed: No JWT token received in response"
    /\ isAuthenticationError e = true
    /\ jwtToken st' = jwtToken st
    /\ calls st' = (calls st ++ [loginRequest cfg])%list.
Proof.
  intros Hslot Hok Hjson Hjwt.
  eexists. exists (logged st (loginRequest cfg)).
  rewrite authenticate_eq, Hslot. cbv zeta.
  rewrite Hok, Hjson, Hjwt. simpl.
  repeat split.
Qed.

End AuthFacts.

Lemma authenticate_twice_one_call_witness :
  authenticate Remote.demo (Remote.scripted [Remote.loginOk "test-jwt"]) initial
    = (Normal (VStr "test-jwt"),
       {| jwtToken := VStr "test-jwt";
          calls := [loginRequest Remote.demo] |})
  /\ authenticate Remote.demo (Remote.scripted [Remote.loginOk "test-jwt"])
       {| jwtToken := VStr "test-jwt"; calls := [loginRequest Remote.demo] |}
     = (Normal (VStr "test-jwt"),
        {| jwtToken := VStr "test-jwt";
           calls := [loginRequest Remote.demo] |}).
Proof.
  split; [reflexivity|].
  apply (authenticate_twice_one_call Remote.demo
           (Remote.scripted [Remote.loginOk "test-jwt"]) initial).
  reflexivity.
Defined.

Lemma authenticate_missing_token_witness :
  truthy (jwtToken initial) = false
  /\ ok (Remote.scripted [Remote.okJson (VObj [])] 0
            (loginRequest Remote.demo)) = true
  /\ getProp (VObj []) "jwt" = Normal VUndefined
  /\ exists e st',
       authenticate Remote.demo (Remote.scripted [Remote.okJson (VObj [])])
         initial = (Throw e, st')
       /\ e = Error "Authentication failed: No JWT token received in response"
       /\ isAuthenticationError e = true
       /\ jwtToken st' = jwtToken initial
       /\ calls st' = (calls initial ++ [loginRequest Remote.demo])%list.
Proof.
  repeat (split; [reflexivity|]).
  apply (authenticate_missing_token Remote.demo
           (Remote.scripted [Remote.okJson (VObj [])]) initial (VObj []));
    reflexivity.
Defined.

(** C7.  The claim fails on a login answered with a success status and
    the JSON body [null], a body without the token field: reading
    [data.jwt] raises a [TypeError], so what [authenticate] throws is not
    the authentication error its check for a missing token is there to
    raise.  The slot stays empty. *)
Theorem authenticate_null_body_not_reported (cfg : config) :
  exists m,
    authenticate cfg (Remote.scripted [Remote.okJson VNull]) initial
    = (Throw (TypeError m),
       {| jwtToken := VNull; calls := [loginRequest cfg] |})
    /\ isAuthenticationError (TypeError m) = false.
Proof. eexists. split; reflexivity. Qed.

(** ** The request executors *)

Section RequestFacts.

Variable cfg : config.
Variable net : network.

Local Ltac step_proof st :=
  cbn [makeRequest makePostRequest makePutRequest];
  unfold bind at 1;
  destruct (authenticate cfg net st) as [[jwt|e|] st1]; try reflexivity;
  unfold afterFetch, bind, fetch, getToken, setToken, throw, logged; simpl;
  match goal with
  | |- context [ok ?r] => destruct (ok r); simpl; [reflexivity|]
  end;
  match goal with
  | |- context [(?a && ?b)%bool] => destruct (a && b)%bool; reflexivity
  end.

Lemma makeRequest_step fuel path params st :
  makeRequest cfg net (S fuel) path params st =
  match authenticate cfg net st with
  | (Normal jwt, st1) =>
      afterFetch net (resourceRequest cfg GET path (searchParams params) jwt NoBody)
        st1 (makeRequest cfg net fuel path params)
        (fun r => "HTTP " ++ string_of_Z (status r) ++ ": " ++ statusText r)
  | (Throw e, st1) => (Throw e, st1)
  | (Unfinished, st1) => (Unfinished, st1)
  end.
Proof. step_proof st. Qed.

Lemma makePostRequest_step fuel path data st :
  makePostRequest cfg net (S fuel) path data st =
  match authenticate cfg net st with
  | (Normal jwt, st1) =>
      afterFetch net (resourceRequest cfg POST path [] jwt (JsonBody data))
        st1 (makePostRequest cfg net fuel path data)
        (fun r => "HTTP " ++ string_of_Z (status r) ++ ": " ++ statusText r
                  ++ "; " ++ text r)
  | (Throw e, st1) => (Throw e, st1)
  | (Unfinished, st1) => (Unfinished, st1)
  end.
Proof. step_proof st. Qed.

Lemma makePutRequest_step fuel path data st :
  makePutRequest cfg net (S fuel) path data st =
  match authenticate cfg net st with
  | (Normal jwt, st1) =>
      afterFetch net (resourceRequest cfg PUT path [] jwt (JsonBody data))
        st1 (makePutRequest cfg net fuel path data)
        (fun r => "HTTP " ++ string_of_Z (status r) ++ ": " ++ statusText r)
  | (Throw e, st1) => (Throw e, st1)
  | (Unfinished, st1) => (Unfinished, st1)
  end.
Proof. step_proof st. Qed.

(** The guard of the retry reads the slot after [authenticate] filled
    it, so it always holds: every 401 is answered by a retry. *)
Lemma afterFetch_401_retries q st st1 jwt retry failureMessage :
  authenticate cfg net st = (Normal jwt, st1) ->
  status (net (List.length (calls st1)) q) = 401%Z ->
  afterFetch net q st1 retry failureMessage =
  retry {| jwtToken := VNull; calls := calls st1 ++ [q] |}.
Proof.
  intros Ha Hs.
  destruct (authenticate_returns _ _ _ _ _ Ha) as (Ht & Tt & _).
  unfold afterFetch, ok. rewrite Hs, <- Ht, Tt. reflexivity.
Qed.

(** A 401 is retried whether or not a token was cached before the call:
    the state the retry starts from is the same in both cases. *)
Lemma makeRequest_401_always_retried fuel path params st jwt st1 :
  authenticate cfg net st = (Normal jwt, st1) ->
  status (net (List.length (calls st1))
            (resourceRequest cfg GET path (searchParams params) jwt NoBody))
    = 401%Z ->
  makeRequest cfg net (S fuel) path params st =
  makeRequest cfg net fuel path params
    {| jwtToken := VNull;
       calls := calls st1
                ++ [resourceRequest cfg GET path (searchParams params)
                      jwt NoBody] |}.
Proof.
  intros Ha Hs. rewrite makeRequest_step, Ha.
  now apply afterFetch_401_retries with (st := st) (jwt := jwt).
Qed.

(** X26.  The refresh: a cached token is rejected once, the login that
    follows succeeds and so does the retry.  One [makeRequest] returns
    the parsed body after exactly three network calls. *)
Lemma makeRequest_refresh fuel path params st data fresh v :
  truthy (jwtToken st) = true ->
  let n := List.length (calls st) in
  let q1 := resourceRequest cfg GET path (searchParams params)
              (jwtToken st) NoBody in
  let q3 := resourceRequest cfg GET path (searchParams params) fresh NoBody in
  status (net n q1) = 401%Z ->
  ok (net (S n) (loginRequest cfg)) = true ->
  json (net (S n) (loginRequest cfg)) = Some data ->
  getProp data "jwt" = Normal fresh ->
  truthy fresh = true ->
  ok (net (S (S n)) q3) = true ->
  json (net (S (S n)) q3) = Some v ->
  makeRequest cfg net (S (S fuel)) path params st =
  (Normal v,
   {| jwtToken := fresh;
      calls := calls st ++ [q1; loginRequest cfg; q3] |}).
Proof.
  intros Hc n q1 q3 H401 Hok2 Hj2 Hjwt Hfresh Hok3 Hj3.
  rewrite (makeRequest_401_always_retried (S fuel) path params st
             (jwtToken st) st);
    [|now apply authenticate_cached|exact H401].
  fold q1. rewrite makeRequest_step, authenticate_eq. simpl.
  rewrite length_app. simpl. rewrite Nat.add_1_r. fold n.
  rewrite Hok2, Hj2, Hjwt, Hfresh. simpl.
  unfold afterFetch. simpl.
  rewrite !length_app. simpl. rewrite Nat.add_1_r. fold n. fold q3.
  replace (S (n + 1)) with (S (S n)) by lia.
  rewrite Hok3. unfold parsed, logged. rewrite Hj3. simpl.
  unfold ret. rewrite <- !app_assoc. reflexivity.
Qed.

(** A failure other than 401: what the error of each executor says. *)
Lemma afterFetch_failure q st1 retry failureMessage :
  ok (net (List.length (calls st1)) q) = false ->
  status (net (List.length (calls st1)) q) <> 401%Z ->
  afterFetch net q st1 retry failureMessage =
  (Throw (Error (failureMessage (net (List.length (calls st1)) q))),
   logged st1 q).
Proof.
  intros Hok Hs. unfold afterFetch. rewrite Hok.
  apply Z.eqb_neq in Hs. now rewrite Hs.
Qed.

(** X27.  A failed answer other than 401 ends [makePostRequest] at
    once, with an error that names the status, the status text and the
    response body. *)
Lemma makePostRequest_failure fuel path data st jwt st1 :
  authenticate cfg net st = (Normal jwt, st1) ->
  let q := resourceRequest cfg POST path [] jwt (JsonBody data) in
  let r := net (List.length (calls st1)) q in
  ok r = false -> status r <> 401%Z ->
  makePostRequest cfg net (S fuel) path data st =
  (Throw (Error ("HTTP " ++ string_of_Z (status r) ++ ": " ++ statusText r
                 ++ "; " ++ text r)), logged st1 q).
Proof.
  intros Ha q r Hok Hs. rewrite makePostRequest_step, Ha.
  now rewrite afterFetch_failure.
Qed.

Lemma makePutRequest_failure fuel path data st jwt st1 :
  authenticate cfg net st = (Normal jwt, st1) ->
  let q := resourceRequest cfg PUT path [] jwt (JsonBody data) in
  let r := net (List.length (calls st1)) q in
  ok r = false -> status r <> 401%Z ->
  makePutRequest cfg net (S fuel) path data st =
  (Throw (Error ("HTTP " ++ string_of_Z (status r) ++ ": " ++ statusText r)),
   logged st1 q).
Proof.
  intros Ha q r Hok Hs. rewrite makePutRequest_step, Ha.
  now rewrite afterFetch_failure.
Qed.

(** A login is not counted as a resource call. *)
Lemma resourceCalls_logged (log : list request) (q : request) :
  resourceCalls (log ++ [q]) =
  resourceCalls log + (if isLogin q then 0 else 1).
Proof.
  unfold resourceCalls. rewrite filter_app, length_app. simpl.
  destruct (isLogin q); reflexivity.
Qed.

End RequestFacts.

Section Rejected.

Import Remote.

Variable cfg : config.

Lemma authenticate_alwaysUnauthorized (st : state) :
  exists jwt st1,
    authenticate cfg alwaysUnauthorized st = (Normal jwt, st1)
    /\ resourceCalls (calls st1) = resourceCalls (calls st).
Proof.
  rewrite authenticate_eq.
  destruct (truthy (jwtToken st)).
  - exists (jwtToken st), st. split; reflexivity.
  - simpl. eexists. eexists. split; [reflexivity|].
    simpl. rewrite resourceCalls_logged. simpl. lia.
Qed.

(** Against a remote side that rejects every resource call, no budget
    of recursive calls lets [makeRequest] return or throw: each level
    makes one more resource call and recurs. *)
Lemma makeRequest_never_gives_up fuel path params st :
  exists st',
    makeRequest cfg alwaysUnauthorized fuel path params st = (Unfinished, st')
    /\ resourceCalls (calls st') = resourceCalls (calls st) + fuel.
Proof.
  revert st. induction fuel as [|fuel IH]; intros st.
  - exists st. split; [reflexivity | lia].
  - rewrite makeRequest_step.
    destruct (authenticate_alwaysUnauthorized st) as (jwt & st1 & Ha & Hc).
    rewrite Ha.
    rewrite (afterFetch_401_retries cfg alwaysUnauthorized _ st st1 jwt);
      [|exact Ha|reflexivity].
    destruct (IH {| jwtToken := VNull;
                    calls := calls st1
                             ++ [resourceRequest cfg GET path
                                   (searchParams params) jwt NoBody] |})
      as (st' & He & Hn).
    exists st'. split; [exact He|].
    rewrite Hn. simpl calls. rewrite resourceCalls_logged, Hc. simpl. lia.
Qed.

Lemma makePostRequest_never_gives_up fuel path data st :
  exists st',
    makePostRequest cfg alwaysUnauthorized fuel path data st = (Unfinished, st')
    /\ resourceCalls (calls st') = resourceCalls (calls st) + fuel.
Proof.
  revert st. induction fuel as [|fuel IH]; intros st.
  - exists st. split; [reflexivity | lia].
  - rewrite makePostRequest_step.
    destruct (authenticate_alwaysUnauthorized st) as (jwt & st1 & Ha & Hc).
    rewrite Ha.
    rewrite (afterFetch_401_retries cfg alwaysUnauthorized _ st st1 jwt);
      [|exact Ha|reflexivity].
    destruct (IH {| jwtToken := VNull;
                    calls := calls st1
                             ++ [resourceRequest cfg POST path [] jwt
                                   (JsonBody data)] |})
      as (st' & He & Hn).
    exists st'. split; [exact He|].
    rewrite Hn. simpl calls. rewrite resourceCalls_logged, Hc. simpl. lia.
Qed.

End Rejected.

(** ** Scenarios *)

Section Scenarios.

Import Remote.

(** The refresh of the unit tests: a cached token is rejected once, the
    login succeeds and the retry succeeds; three network calls. *)
Example makeRequest_refresh_three_calls :
  let run :=
    makeRequest demo
      (scripted [unauthorized; loginOk "new-jwt-token"; okJson emptyCollection])
      2 "/tests" [] (cached "test-jwt") in
  fst run = Normal emptyCollection
  /\ jwtToken (snd run) = VStr "new-jwt-token"
  /\ List.length (calls (snd run)) = 3
  /\ loginCalls (calls (snd run)) = 1.
Proof. repeat split. Qed.

(** C1 (the code departs from it).  A second 401, met by the retry, is
    retried again: with answers 401, login, 401, login, 200 one
    [makeRequest] makes five network calls, three of them attempts of the
    request.  Against a remote side that keeps answering 401 neither
    [makeRequest] nor [makePostRequest] ever stops: a budget of [fuel]
    recursive calls is used up after [fuel] attempts. *)
Theorem makeRequest_401_retried_without_bound :
  (let run :=
     makeRequest demo
       (scripted [unauthorized; loginOk "a"; unauthorized; loginOk "b";
                  okJson emptyCollection])
       3 "/tests" [] (cached "stale") in
   fst run = Normal emptyCollection
   /\ List.length (calls (snd run)) = 5
   /\ resourceCalls (calls (snd run)) = 3
   /\ loginCalls (calls (snd run)) = 2)
  /\ (forall fuel, exists st',
        makeRequest demo alwaysUnauthorized fuel "/tests" [] (cached "stale")
          = (Unfinished, st')
        /\ resourceCalls (calls st') = fuel)
  /\ (forall fuel, exists st',
        makePostRequest demo alwaysUnauthorized fuel "/tests" VNull
          (cached "stale") = (Unfinished, st')
        /\ resourceCalls (calls st') = fuel).
Proof.
  split; [repeat split|split]; intros fuel.
  - destruct (makeRequest_never_gives_up demo fuel "/tests" [] (cached "stale"))
      as (st' & He & Hn).
    exists st'. split; [exact He | exact Hn].
  - destruct (makePostRequest_never_gives_up demo fuel "/tests" VNull
                (cached "stale")) as (st' & He & Hn).
    exists st'. split; [exact He | exact Hn].
Qed.

(** C2 (the code departs from it).  A 401 met by the attempt that follows
    a fresh login (no token was cached before the call) is retried all
    the same: the slot is invalidated, a second login is made and the
    request is sent again; no error is thrown.  Against a remote side
    that keeps answering 401 the call never ends in an error. *)
Theorem makeRequest_401_after_fresh_login_retried :
  (let run :=
     makeRequest demo
       (scripted [loginOk "first"; unauthorized; loginOk "second";
                  okJson emptyCollection])
       2 "/tests" [] initial in
   fst run = Normal emptyCollection
   /\ jwtToken (snd run) = VStr "second"
   /\ List.length (calls (snd run)) = 4
   /\ loginCalls (calls (snd run)) = 2
   /\ resourceCalls (calls (snd run)) = 2)
  /\ (forall fuel,
        fst (makeRequest demo alwaysUnauthorized fuel "/tests" [] initial)
        = Unfinished).
Proof.
  split; [repeat split|]. intros fuel.
  destruct (makeRequest_never_gives_up demo fuel "/tests" [] initial)
    as (st' & He & _).
  now rewrite He.
Qed.

(** C8 (the code departs from it).  For the same failed answer, the
    error of [makePostRequest] ends with the response body and the error
    of [makePutRequest] stops at the status text, whatever the body
    is. *)
Theorem makePutRequest_error_omits_body (body : string) :
  exists ePut ePost,
    fst (makePutRequest demo
           (answering (failure 422 "Unprocessable Entity" body))
           1 "/tests/1" VNull (cached "jwt")) = Throw ePut
    /\ fst (makePostRequest demo
              (answering (failure 422 "Unprocessable Entity" body))
              1 "/tests" VNull (cached "jwt")) = Throw ePost
    /\ isApiRequestError ePut = true
    /\ isApiRequestError ePost = true
    /\ message ePut = "HTTP 422: Unprocessable Entity"
    /\ message ePost = "HTTP 422: Unprocessable Entity; " ++ body.
Proof. do 2 eexists. repeat split. Qed.

End Scenarios.

(** ** Tags *)

Section TagFacts.

Import Tags.

Lemma existsb_eqb_In (x : string) (l : list string) :
  existsb (String.eqb x) l = true <-> In x l.
Proof.
  rewrite existsb_exists. split.
  - intros (y & Hy & E). apply String.eqb_eq in E. now subst.
  - intros H. exists x. split; [exact H | apply String.eqb_refl].
Qed.

(** [fresh] keeps exactly the new elements, each once. *)
Lemma fresh_In (seen xs : list string) (x : string) :
  In x (fresh seen xs) <-> In x xs /\ ~ In x seen.
Proof.
  revert seen. induction xs as [|y xs IH]; intros seen; simpl.
  - tauto.
  - destruct (existsb (String.eqb y) seen) eqn:E.
    + apply existsb_eqb_In in E. rewrite IH.
      split; [tauto|]. intros [[->|H] N]; [contradiction | tauto].
    + assert (Hy : ~ In y seen).
      { intros H. apply existsb_eqb_In in H. congruence. }
      simpl. rewrite IH. simpl.
      split.
      * intros [->|[H N]]; [tauto|]. split; [tauto|]. intros H'. apply N. tauto.
      * intros [[->|H] N]; [tauto|].
        destruct (string_dec y x) as [->|D]; [tauto|].
        right. split; [exact H|]. intros [H'|H']; [contradiction | tauto].
Qed.

Lemma fresh_NoDup (seen xs : list string) : NoDup (fresh seen xs).
Proof.
  revert seen. induction xs as [|y xs IH]; intros seen; simpl.
  - constructor.
  - destruct (existsb (String.eqb y) seen); [apply IH|].
    constructor; [|apply IH].
    rewrite fresh_In. simpl. tauto.
Qed.

Lemma extractTagsFromTitle_NoDup (title : string) :
  NoDup (extractTagsFromTitle title).
Proof. apply fresh_NoDup. Qed.

Lemma mergeTags_explicit_first (explicitTags titleTags : list string) :
  firstn (List.length explicitTags) (mergeTags explicitTags titleTags)
  = map stripAt explicitTags.
Proof.
  unfold mergeTags.
  rewrite <- (length_map stripAt explicitTags).
  rewrite firstn_app, Nat.sub_diag, firstn_all. simpl.
  apply app_nil_r.
Qed.

Example extractTagsFromTitle_sample :
  extractTagsFromTitle "@smoke @regression test with @critical priority"
    = ["smoke"; "regression"; "critical"]
  /\ extractTagsFromTitle "@smoke test with @smoke tag duplicate" = ["smoke"]
  /\ extractTagsFromTitle "@smoke-test @regression_v2 @api-integration"
     = ["smoke-test"; "regression_v2"; "api-integration"]
  /\ extractTagsFromTitle "Simple test title" = []
  /\ mergeTags ["smoke"; "api"] ["regression"; "smoke"]
     = ["smoke"; "api"; "regression"].
Proof. repeat split. Qed.

(** C9 (the code departs from it).  The request [createTest] and
    [updateTest] send carries the [tags] argument exactly as given, and
    no [tags] at all when none is given: the title is not read, and a
    leading [@] is not stripped.  The merged list of the utilities
    differs on the inputs of the repository's tests. *)
Theorem createTest_sends_tags_as_given :
  (forall title,
     sentTags (createTestData [("suite_id", VStr "suite-456");
                               ("title", VStr title)]) = None)
  /\ (forall title tags,
        sentTags (createTestData [("title", VStr title); ("tags", tags)])
        = Some tags)
  /\ (forall title,
        sentTags (updateTestData [("test_id", VStr "test-126");
                                  ("title", VStr title)]) = None)
  /\ (forall title tags,
        sentTags (updateTestData [("test_id", VStr "test-126");
                                  ("title", VStr title); ("tags", tags)])
        = Some tags)
  /\ mergeTags [] (extractTagsFromTitle "@smoke @regression test title")
     = ["smoke"; "regression"]
  /\ mergeTags ["@frontend"; "backend"; "@ui"] ["api"]
     = ["frontend"; "backend"; "ui"; "api"]
  /\ map req_body
       (calls (snd (createTest Remote.demo
                      (Remote.answering
                         (Remote.okJson
                            (VObj [("data", VObj [("id", VStr "test-123")])])))
                      1
                      [("suite_id", VStr "suite-456");
                       ("title", VStr "@smoke @regression test title")]
                      (Remote.cached "test-jwt"))))
     = [JsonBody
          (VObj [("data",
                  VObj [("type", VStr "tests");
                        ("attributes",
                         VObj [("title",
                                VStr "@smoke @regression test title")]);
                        ("relationships",
                         VObj [("suite",
                                VObj [("data",
                                       VObj [("type", VStr "suites");
                                             ("id", VStr "suite-456")])])])])])].
Proof. repeat split. Qed.

End TagFacts.

(** ** Configuration strings *)

Section NormalizeFacts.

Import Str Normalize.

Lemma allSpaces_app (a b : string) :
  allSpaces (a ++ b) = allSpaces a && allSpaces b.
Proof.
  induction a as [|c a IH]; simpl; [reflexivity|].
  now rewrite IH, andb_assoc.
Qed.

Lemma trimStart_split (s : string) :
  exists l, allSpaces l = true /\ s = l ++ trimStart s
            /\ isSpaceOpt (firstChar (trimStart s)) = false.
Proof.
  induction s as [|c s (l & Hl & Hs & Hf)]; simpl.
  - exists "". auto.
  - destruct (isSpace c) eqn:E.
    + exists (String c l). simpl. rewrite E, Hl. repeat split; [|exact Hf].
      now rewrite <- Hs.
    + exists "". simpl. auto.
Qed.

Lemma trimEnd_split (s : string) :
  exists r, allSpaces r = true /\ s = trimEnd s ++ r
            /\ isSpaceOpt (lastChar (trimEnd s)) = false.
Proof.
  induction s as [|c s (r & Hr & Hs & Hf)]; simpl.
  - exists "". auto.
  - destruct (trimEnd s) as [|d t] eqn:T.
    + simpl in Hs. subst r.
      destruct (isSpace c) eqn:E.
      * exists (String c s). simpl. now rewrite E, Hr.
      * exists s. simpl. now rewrite E.
    + exists r. repeat split; [exact Hr | simpl; now rewrite Hs |].
      simpl in Hf |- *. exact Hf.
Qed.

Lemma trimEnd_firstChar (s : string) :
  isSpaceOpt (firstChar s) = false ->
  isSpaceOpt (firstChar (trimEnd s)) = false.
Proof.
  destruct s as [|c s]; simpl; [reflexivity|].
  intros H. destruct (trimEnd s); [|exact H].
  rewrite H. exact H.
Qed.

Lemma trimStart_fixed (s : string) :
  isSpaceOpt (firstChar s) = false -> trimStart s = s.
Proof. destruct s as [|c s]; simpl; [reflexivity|]. now intros ->. Qed.

Lemma trimEnd_fixed (s : string) :
  isSpaceOpt (lastChar s) = false -> trimEnd s = s.
Proof.
  induction s as [|c s IH]; simpl; [reflexivity|].
  destruct s as [|d s'].
  - simpl. now intros ->.
  - intros H. rewrite (IH H). reflexivity.
Qed.

(** The parts of a trimmed string. *)
Lemma trim_split (s : string) :
  exists l r,
    allSpaces l = true /\ allSpaces r = true
    /\ s = l ++ trim s ++ r
    /\ isSpaceOpt (firstChar (trim s)) = false
    /\ isSpaceOpt (lastChar (trim s)) = false.
Proof.
  unfold trim.
  destruct (trimStart_split s) as (l & Hl & Hs & Hf).
  destruct (trimEnd_split (trimStart s)) as (r & Hr & Ht & Hlast).
  exists l, r. repeat split; try assumption.
  - now rewrite <- Ht.
  - now apply trimEnd_firstChar.
Qed.

Lemma trim_fixed (s : string) :
  isSpaceOpt (firstChar s) = false -> isSpaceOpt (lastChar s) = false ->
  trim s = s.
Proof.
  intros Hf Hl. unfold trim. rewrite (trimStart_fixed _ Hf).
  now apply trimEnd_fixed.
Qed.

Lemma trim_idempotent (s : string) : trim (trim s) = trim s.
Proof.
  destruct (trim_split s) as (l & r & _ & _ & _ & Hf & Hl).
  now apply trim_fixed.
Qed.

Lemma removeSpaces_app (a b : string) :
  removeSpaces (a ++ b) = removeSpaces a ++ removeSpaces b.
Proof.
  induction a as [|c a IH]; simpl; [reflexivity|].
  destruct (isSpace c); simpl; now rewrite IH.
Qed.

Lemma removeSpaces_allSpaces (s : string) :
  allSpaces s = true -> removeSpaces s = "".
Proof.
  induction s as [|c s IH]; simpl; [reflexivity|].
  intros H. apply andb_true_iff in H. destruct H as [-> H]. auto.
Qed.

Lemma removeSpaces_hasSpace (s : string) : hasSpace (removeSpaces s) = false.
Proof.
  induction s as [|c s IH]; simpl; [reflexivity|].
  destruct (isSpace c) eqn:E; simpl; [exact IH|]. now rewrite E.
Qed.

Lemma removeSpaces_fixed (s : string) :
  hasSpace s = false -> removeSpaces s = s.
Proof.
  induction s as [|c s IH]; simpl; [reflexivity|].
  intros H. apply orb_false_iff in H. destruct H as [-> H].
  now rewrite IH.
Qed.

Lemma removeSpaces_trim (s : string) : removeSpaces (trim s) = removeSpaces s.
Proof.
  destruct (trim_split s) as (l & r & Hl & Hr & Hs & _).
  rewrite Hs at 2.
  rewrite !removeSpaces_app, (removeSpaces_allSpaces _ Hl),
    (removeSpaces_allSpaces _ Hr).
  simpl. now rewrite append_empty_r.
Qed.

(** X1.  [normalizeString] cuts a string down to what lies between its
    leading and its trailing white space: the input is the result with
    white space only before and after it, the result neither starts nor
    ends with white space, and normalizing twice changes nothing (for a
    value of any type). *)
Theorem normalizeString_trims (s : string) (v : value) :
  (exists l r t,
     normalizeString (VStr s) = VStr t
     /\ s = l ++ t ++ r
     /\ allSpaces l = true /\ allSpaces r = true
     /\ isSpaceOpt (firstChar t) = false
     /\ isSpaceOpt (lastChar t) = false)
  /\ normalizeString (normalizeString v) = normalizeString v.
Proof.
  split.
  - destruct (trim_split s) as (l & r & Hl & Hr & Hs & Hf & Hlast).
    exists l, r, (trim s). repeat split; assumption.
  - destruct v; simpl; try reflexivity. now rewrite trim_idempotent.
Qed.

(** X2.  [normalizeBaseUrl] drops every white space character of a
    string, wherever it stands, and nothing else (the trimming it does
    first adds nothing); the result has no white space left, a string
    without white space is returned as it is, and normalizing twice
    changes nothing. *)
Theorem normalizeBaseUrl_drops_all_spaces (s : string) (v : value) :
  normalizeBaseUrl (VStr s) = VStr (removeSpaces s)
  /\ hasSpace (removeSpaces s) = false
  /\ (if hasSpace s then True else normalizeBaseUrl (VStr s) = VStr s)
  /\ normalizeBaseUrl (normalizeBaseUrl v) = normalizeBaseUrl v.
Proof.
  assert (E : forall x, normalizeBaseUrl (VStr x) = VStr (removeSpaces x)).
  { intros x. simpl. now rewrite removeSpaces_trim. }
  repeat split.
  - apply E.
  - apply removeSpaces_hasSpace.
  - destruct (hasSpace s) eqn:H; [exact I|].
    now rewrite E, removeSpaces_fixed.
  - destruct v; try reflexivity.
    rewrite !E. f_equal. apply removeSpaces_fixed, removeSpaces_hasSpace.
Qed.

Example normalizeBaseUrl_sample :
  normalizeBaseUrl (VStr ("http://" ++ nl ++ "  localhost:3000"))
  = VStr "http://localhost:3000"
  /\ normalizeString (VStr (nl ++ "  test-project-id  " ++ nl))
     = VStr "test-project-id".
Proof. split; reflexivity. Qed.

End NormalizeFacts.

(** ** More on escapeXml *)

Section EscapeMore.

Import Str.

Lemma includes_char_cons (c x : ascii) (s : string) :
  includes (String c "") (String x s) =
  Ascii.eqb c x || includes (String c "") s.
Proof. simpl. now rewrite andb_true_r. Qed.

Lemma includes_char_app (c : ascii) (a b : string) :
  includes (String c "") (a ++ b) =
  includes (String c "") a || includes (String c "") b.
Proof.
  induction a as [|x a IH].
  - simpl. destruct b; reflexivity.
  - change (String x a ++ b) with (String x (a ++ b)).
    rewrite !includes_char_cons, IH. now rewrite orb_assoc.
Qed.

Lemma includes_char_flatMap (c : ascii) (f : ascii -> string) (s : string) :
  (forall x, includes (String c "") (f x) = false) ->
  includes (String c "") (flatMap f s) = false.
Proof.
  intros H. induction s as [|x s IH]; simpl; [reflexivity|].
  now rewrite includes_char_app, H, IH.
Qed.

Lemma length_append (a b : string) :
  String.length (a ++ b) = String.length a + String.length b.
Proof. induction a as [|x a IH]; simpl; [reflexivity | now rewrite IH]. Qed.

Lemma escape_length (s : string) :
  String.length s <= String.length (flatMap escapeChar s).
Proof.
  induction s as [|x s IH]; simpl; [lia|].
  rewrite length_append.
  assert (1 <= String.length (escapeChar x)).
  { destruct x as [[] [] [] [] [] [] [] []]; simpl; lia. }
  lia.
Qed.

(** X3.  What [escapeXml] returns for a string has none of the
    characters [<], [>], double quote and single quote left in it. *)
Theorem escapeXml_no_raw_markup (s : string) :
  hasRawMarkup (toStr (escapeXml (VStr s))) = false.
Proof.
  simpl. rewrite escapeXmlString_flatMap. unfold hasRawMarkup.
  rewrite !includes_char_flatMap; try reflexivity;
    intros x; destruct x as [[] [] [] [] [] [] [] []]; reflexivity.
Qed.

(** X4.  [escapeXml] keeps strings apart: two strings with the same
    escaping are the same string. *)
Theorem escapeXml_injective (a b : string) :
  escapeXml (VStr a) = escapeXml (VStr b) -> a = b.
Proof.
  simpl. intros H. injection H as H.
  rewrite <- (unescape_escape a), <- (unescape_escape b). now rewrite H.
Qed.

Lemma escapeXml_injective_witness :
  escapeXml (VStr "a<b") = escapeXml (VStr "a<b") /\ "a<b" = "a<b".
Proof.
  split; [reflexivity|].
  apply (escapeXml_injective "a<b" "a<b"). reflexivity.
Defined.

(** X5.  Escaping goes through concatenation: the escaping of [a ++ b]
    is the escaping of [a] followed by the escaping of [b]. *)
Theorem escapeXmlString_append (a b : string) :
  escapeXmlString (a ++ b) = escapeXmlString a ++ escapeXmlString b.
Proof. rewrite !escapeXmlString_flatMap. apply flatMap_app. Qed.

(** X6.  [escapeXml] returns a string as it is exactly when the string
    has none of the five characters in it. *)
Theorem escapeXmlString_fixed_iff (s : string) :
  escapeXmlString s = s <-> hasXmlSignificant s = false.
Proof.
  rewrite escapeXmlString_flatMap. unfold hasXmlSignificant, hasRawMarkup.
  induction s as [|x s IH].
  - simpl. tauto.
  - rewrite !includes_char_cons.
    change (flatMap escapeChar (String x s))
      with (escapeChar x ++ flatMap escapeChar s).
    destruct x as [[] [] [] [] [] [] [] []];
      cbn [escapeChar Ascii.eqb Bool.eqb orb andb dquote];
      rewrite ?orb_true_r;
      try (split; [intros H; injection H as H; apply IH in H; exact H
                  | intros H; apply IH in H; simpl; now rewrite H]);
      try (split; [intros H; discriminate H | intros H; discriminate H]).
    split; [|intros H; discriminate H].
    intros H. simpl in H. injection H as H.
    apply (f_equal String.length) in H. simpl in H.
    pose proof (escape_length s). lia.
Qed.

End EscapeMore.

(** ** Objects *)

Section ObjectFacts.

Lemma lookup_setOwn_same (k : string) (v : value) (kvs : list (string * value)) :
  lookup k (setOwn k v kvs) = Some v.
Proof.
  induction kvs as [|[k' v'] kvs IH]; simpl.
  - now rewrite String.eqb_refl.
  - destruct (k' =? k) eqn:E; simpl.
    + now rewrite String.eqb_refl.
    + now rewrite E.
Qed.

Lemma lookup_setOwn_other (k k' : string) (v : value)
    (kvs : list (string * value)) :
  k <> k' -> lookup k (setOwn k' v kvs) = lookup k kvs.
Proof.
  intros N. induction kvs as [|[k0 v0] kvs IH]; simpl.
  - apply String.eqb_neq in N. rewrite String.eqb_sym. now rewrite N.
  - destruct (String.eqb_spec k0 k') as [->|N0]; simpl.
    + apply String.eqb_neq in N. rewrite String.eqb_sym. now rewrite N.
    + now rewrite IH.
Qed.

Lemma getOwn_setOwn_same (k : string) (v : value) (kvs : list (string * value)) :
  getOwn k (setOwn k v kvs) = v.
Proof. unfold getOwn. now rewrite lookup_setOwn_same. Qed.

Lemma getOwn_setOwn_other (k k' : string) (v : value)
    (kvs : list (string * value)) :
  k <> k' -> getOwn k (setOwn k' v kvs) = getOwn k kvs.
Proof. intros N. unfold getOwn. now rewrite lookup_setOwn_other. Qed.

Lemma keys_setOwn (x k : string) (v : value) (kvs : list (string * value)) :
  In x (map fst (setOwn k v kvs)) <-> x = k \/ In x (map fst kvs).
Proof.
  induction kvs as [|[k0 v0] kvs IH]; simpl.
  - intuition.
  - destruct (String.eqb_spec k0 k) as [->|N]; simpl.
    + intuition.
    + rewrite IH. intuition.
Qed.

Lemma NoDup_setOwn (k : string) (v : value) (kvs : list (string * value)) :
  NoDup (map fst kvs) -> NoDup (map fst (setOwn k v kvs)).
Proof.
  induction kvs as [|[k0 v0] kvs IH]; simpl; intros H.
  - constructor; [intros [] | constructor].
  - inversion H as [|? ? Hn Hd]; subst.
    destruct (String.eqb_spec k0 k) as [->|N]; simpl.
    + constructor; assumption.
    + constructor; [|now apply IH].
      rewrite keys_setOwn. intros [E|I]; [now subst | contradiction].
Qed.

Lemma or_same (v : value) : or_ v v = v.
Proof. unfold or_. now destruct (truthy v). Qed.

End ObjectFacts.

(** ** More on the formatter *)

Section FormatMore.

Import Str.







(** Without attributes an inherited name is not rendered empty: the
    element holds the source text of the inherited function. *)
Lemma formatModel_inherited_name :
  formatModel (VObj [("id", VStr "7")]) "test" ["constructor"] =
  Normal ("<test>" ++ nl ++ "  <id>7</id>" ++ nl
          ++ "  <constructor>function Object() { [native code] }</constructor>"
          ++ nl ++ "</test>").
Proof. reflexivity. Qed.

Lemma orMember_same (m : member) : orMember m m = m.
Proof. unfold orMember. now destruct (memberTruthy m). Qed.

(** X8.  For a requested name with neither hyphen nor underscore the
    value rendered is the member of the attribute bag under that name
    (the attribute itself when the bag has one), also when it is falsy (a
    count of zero, [false], an empty string): the second lookup reads the
    same key. *)
Theorem fieldValue_plain_name (attributes : list (string * value))
    (field : string) :
  includes "-" field = false ->
  includes "_" field = false ->
  fieldValue attributes field = memberOf attributes field.
Proof.
  intros Hh Hu. unfold fieldValue. rewrite Hh.
  rewrite (replaceFirst_absent _ _ _ Hu). apply orMember_same.
Qed.

Lemma fieldValue_plain_name_witness :
  includes "-" "passed" = false
  /\ includes "_" "passed" = false
  /\ fieldValue [("passed", VNum 0)] "passed" = Data (VNum 0).
Proof.
  split; [reflexivity|]. split; [reflexivity|].
  apply (fieldValue_plain_name [("passed", VNum 0)] "passed"); reflexivity.
Defined.

(** What [formatModel] returns starts with the opening tag. *)
Lemma formatModel_starts (model : value) (tagName : string)
    (fields : list string) (out : string) :
  formatModel model tagName fields = Normal out ->
  exists rest, out = String "<" rest.
Proof.
  unfold formatModel.
  destruct (getProp model "attributes") as [a|e|]; try discriminate.
  - destruct (getProp model "id") as [i|e|]; try discriminate.
    destruct (fieldLines (attributeBag a) fields) as [ls|e|]; try discriminate.
    intros H. injection H as <-. simpl. eexists. reflexivity.
  - destruct (getProp model "id"); discriminate.
Qed.

End FormatMore.

(** ** More on authenticate and the request executors *)

Section ExecutorMore.

Variable cfg : config.
Variable net : network.

Lemma slotOk_truthy (v : value) (log : list request) :
  truthy v = true -> slotOk {| jwtToken := v; calls := log |} = true.
Proof. unfold slotOk. simpl. now destruct v. Qed.

Lemma authenticate_slotOk (st : state) :
  slotOk st = true -> slotOk (snd (authenticate cfg net st)) = true.
Proof.
  intros H. rewrite authenticate_eq.
  destruct (truthy (jwtToken st)); [exact H|]. cbv zeta.
  destruct (negb (ok _)); [exact H|].
  destruct (json _) as [data|]; [|exact H].
  destruct (getProp data "jwt") as [jwt|e|]; try exact H.
  destruct (truthy jwt) eqn:T; simpl; [|exact H].
  now apply slotOk_truthy.
Qed.

Lemma afterFetch_slotOk q st1 retry failureMessage :
  slotOk st1 = true ->
  (forall st, slotOk st = true -> slotOk (snd (retry st)) = true) ->
  slotOk (snd (afterFetch net q st1 retry failureMessage)) = true.
Proof.
  intros H Hr. unfold afterFetch.
  destruct (ok _).
  - unfold parsed. destruct (json _); exact H.
  - destruct (_ && _); [now apply Hr | exact H].
Qed.

(** X9.  The slot holds nothing or a usable token: from such a state,
    [authenticate] and the three request executors end in such a state,
    however the remote side answers and whatever the outcome. *)
Theorem slot_never_holds_unusable_token
    (fuel : nat) (path : string) (params : list (string * value))
    (data : value) (st : state) :
  slotOk st = true ->
  slotOk (snd (authenticate cfg net st)) = true
  /\ slotOk (snd (makeRequest cfg net fuel path params st)) = true
  /\ slotOk (snd (makePostRequest cfg net fuel path data st)) = true
  /\ slotOk (snd (makePutRequest cfg net fuel path data st)) = true.
Proof.
  intros H. split; [now apply authenticate_slotOk|].
  split; [|split]; revert st H; induction fuel as [|fuel IH]; intros st H;
    try exact H.
  - rewrite makeRequest_step.
    pose proof (authenticate_slotOk st H) as Ha.
    destruct (authenticate cfg net st) as [[jwt|e|] st1]; try exact Ha.
    now apply afterFetch_slotOk.
  - rewrite makePostRequest_step.
    pose proof (authenticate_slotOk st H) as Ha.
    destruct (authenticate cfg net st) as [[jwt|e|] st1]; try exact Ha.
    now apply afterFetch_slotOk.
  - rewrite makePutRequest_step.
    pose proof (authenticate_slotOk st H) as Ha.
    destruct (authenticate cfg net st) as [[jwt|e|] st1]; try exact Ha.
    now apply afterFetch_slotOk.
Qed.

Lemma logGrows_nothing (s : state) :
  exists extra : list request, calls s = (calls s ++ extra)%list.
Proof. exists []. now rewrite app_nil_r. Qed.

Lemma authenticate_logGrows : logGrows (authenticate cfg net).
Proof.
  intros st. rewrite authenticate_eq.
  destruct (truthy (jwtToken st)); [apply logGrows_nothing|].
  cbv zeta.
  destruct (negb (ok _)); [now exists [loginRequest cfg]|].
  destruct (json _) as [d|]; [|now exists [loginRequest cfg]].
  destruct (getProp d "jwt") as [jwt|e|]; try now exists [loginRequest cfg].
  destruct (negb (truthy jwt)); now exists [loginRequest cfg].
Qed.

(** Whatever the answer, the request is the next entry of the log. *)
Lemma afterFetch_sends q st1 (retry : M value) failureMessage :
  logGrows retry ->
  exists rest,
    calls (snd (afterFetch net q st1 retry failureMessage))
    = (calls st1 ++ q :: rest)%list.
Proof.
  intros Hr. unfold afterFetch.
  destruct (ok _).
  - unfold parsed. destruct (json _); now exists [].
  - destruct (_ && _); [|now exists []].
    destruct (Hr {| jwtToken := VNull; calls := calls st1 ++ [q] |})
      as (extra & He).
    exists extra. rewrite He. simpl. now rewrite <- app_assoc.
Qed.

Lemma bind_authenticate_logGrows (st : state)
    (k : value -> state -> completion value * state) :
  (forall jwt st1,
     exists extra, calls (snd (k jwt st1)) = (calls st1 ++ extra)%list) ->
  exists extra,
    calls (snd (match authenticate cfg net st with
                | (Normal jwt, st1) => k jwt st1
                | (Throw e, st1) => (Throw e, st1)
                | (Unfinished, st1) => (Unfinished, st1)
                end)) = (calls st ++ extra)%list.
Proof.
  intros Hk.
  destruct (authenticate_logGrows st) as (e1 & H1).
  destruct (authenticate cfg net st) as [[jwt|e|] st1] eqn:Ha;
    try (now exists e1).
  destruct (Hk jwt st1) as (e2 & H2).
  exists (e1 ++ e2)%list.
  rewrite H2. simpl in H1. rewrite H1. now rewrite <- app_assoc.
Qed.

Lemma afterFetch_logGrows q st1 (retry : M value) failureMessage :
  logGrows retry ->
  exists extra,
    calls (snd (afterFetch net q st1 retry failureMessage))
    = (calls st1 ++ extra)%list.
Proof.
  intros Hr.
  destruct (afterFetch_sends q st1 retry failureMessage Hr) as (rest & H).
  now exists (q :: rest).
Qed.

Lemma makeRequest_logGrows fuel path params :
  logGrows (makeRequest cfg net fuel path params).
Proof.
  induction fuel as [|fuel IH]; intros st; [apply logGrows_nothing|].
  rewrite makeRequest_step. apply bind_authenticate_logGrows.
  intros jwt st1. now apply afterFetch_logGrows.
Qed.

Lemma makePostRequest_logGrows fuel path data :
  logGrows (makePostRequest cfg net fuel path data).
Proof.
  induction fuel as [|fuel IH]; intros st; [apply logGrows_nothing|].
  rewrite makePostRequest_step. apply bind_authenticate_logGrows.
  intros jwt st1. now apply afterFetch_logGrows.
Qed.

Lemma makePutRequest_logGrows fuel path data :
  logGrows (makePutRequest cfg net fuel path data).
Proof.
  induction fuel as [|fuel IH]; intros st; [apply logGrows_nothing|].
  rewrite makePutRequest_step. apply bind_authenticate_logGrows.
  intros jwt st1. now apply afterFetch_logGrows.
Qed.

(** X10.  When [authenticate] hands an executor a token, that token is
    usable and is the one then in the slot, and the executor's next entry
    in the log of network calls, right behind what [authenticate] left,
    is its resource request with exactly that token as the credential;
    everything else it does comes after. *)
Theorem executors_send_current_token
    (fuel : nat) (path : string) (params : list (string * value))
    (data : value) (st st1 : state) (jwt : value) :
  authenticate cfg net st = (Normal jwt, st1) ->
  truthy jwt = true
  /\ jwtToken st1 = jwt
  /\ (exists rest,
        calls (snd (makeRequest cfg net (S fuel) path params st))
        = (calls st1
           ++ resourceRequest cfg GET path (searchParams params) jwt NoBody
              :: rest)%list)
  /\ (exists rest,
        calls (snd (makePostRequest cfg net (S fuel) path data st))
        = (calls st1
           ++ resourceRequest cfg POST path [] jwt (JsonBody data)
              :: rest)%list)
  /\ (exists rest,
        calls (snd (makePutRequest cfg net (S fuel) path data st))
        = (calls st1
           ++ resourceRequest cfg PUT path [] jwt (JsonBody data)
              :: rest)%list).
Proof.
  intros Ha.
  destruct (authenticate_returns _ _ _ _ _ Ha) as (E & T & _).
  split; [exact T|]. split; [now symmetry|].
  split; [|split].
  - rewrite makeRequest_step, Ha. apply afterFetch_sends.
    apply makeRequest_logGrows.
  - rewrite makePostRequest_step, Ha. apply afterFetch_sends.
    apply makePostRequest_logGrows.
  - rewrite makePutRequest_step, Ha. apply afterFetch_sends.
    apply makePutRequest_logGrows.
Qed.

(** X11.  A failed answer other than 401 ends [makeRequest] at once:
    the error names status and status text, the token stays in the slot
    and nothing is sent again. *)
Theorem makeRequest_failure_not_retried fuel path params st jwt st1 :
  authenticate cfg net st = (Normal jwt, st1) ->
  let q := resourceRequest cfg GET path (searchParams params) jwt NoBody in
  let r := net (List.length (calls st1)) q in
  ok r = false -> status r <> 401%Z ->
  makeRequest cfg net (S fuel) path params st =
  (Throw (Error ("HTTP " ++ string_of_Z (status r) ++ ": " ++ statusText r)),
   logged st1 q).
Proof.
  intros Ha q r Hok Hs. rewrite makeRequest_step, Ha.
  now rewrite afterFetch_failure.
Qed.

(** X12.  When the login is refused, [authenticate] throws an error with
    the status, the status text and the response body, and the slot
    stays empty; the failure is not remembered (the next call asks the
    network again), and [makeRequest] from that state throws the same
    error without sending its request. *)
Theorem authenticate_login_refused (st : state) :
  truthy (jwtToken st) = false ->
  let r := net (List.length (calls st)) (loginRequest cfg) in
  ok r = false ->
  let e := Error ("Authentication failed: HTTP " ++ string_of_Z (status r)
                  ++ ": " ++ statusText r ++ ". Response: " ++ text r) in
  let st' := logged st (loginRequest cfg) in
  authenticate cfg net st = (Throw e, st')
  /\ isAuthenticationError e = true
  /\ jwtToken st' = jwtToken st
  /\ List.length (calls (snd (authenticate cfg net st')))
     = S (S (List.length (calls st)))
  /\ (forall fuel path params,
        makeRequest cfg net (S fuel) path params st = (Throw e, st')).
Proof.
  intros Hslot r Hok e st'.
  assert (Ha : authenticate cfg net st = (Throw e, st')).
  { rewrite authenticate_eq, Hslot. cbv zeta. fold r. now rewrite Hok. }
  repeat split.
  - exact Ha.
  - rewrite authenticate_eq. unfold st' at 1. simpl jwtToken. rewrite Hslot.
    cbv zeta.
    assert (L : List.length (calls (logged st' (loginRequest cfg)))
                = S (S (List.length (calls st)))).
    { unfold st', logged. simpl. rewrite !length_app. simpl. lia. }
    destruct (negb (ok _)); [exact L|].
    destruct (json _) as [d|]; [|exact L].
    destruct (getProp d "jwt") as [jwt|x|]; try exact L.
    destruct (negb (truthy jwt)); exact L.
  - intros fuel path params. now rewrite makeRequest_step, Ha.
Qed.

End ExecutorMore.

Lemma makeRequest_refresh_witness :
  makeRequest Remote.demo
    (Remote.scripted [Remote.unauthorized; Remote.loginOk "new-jwt-token";
                      Remote.okJson Remote.emptyCollection])
    2 "/tests" [] (Remote.cached "test-jwt")
  = (Normal Remote.emptyCollection,
     {| jwtToken := VStr "new-jwt-token";
        calls :=
          calls (Remote.cached "test-jwt")
          ++ [resourceRequest Remote.demo GET "/tests" (searchParams [])
                (jwtToken (Remote.cached "test-jwt")) NoBody;
              loginRequest Remote.demo;
              resourceRequest Remote.demo GET "/tests" (searchParams [])
                (VStr "new-jwt-token") NoBody] |}).
Proof.
  apply (makeRequest_refresh Remote.demo
           (Remote.scripted [Remote.unauthorized; Remote.loginOk "new-jwt-token";
                             Remote.okJson Remote.emptyCollection])
           0 "/tests" [] (Remote.cached "test-jwt")
           (VObj [("jwt", VStr "new-jwt-token")]) (VStr "new-jwt-token")
           Remote.emptyCollection);
    reflexivity.
Defined.

Lemma slot_never_holds_unusable_token_witness :
  slotOk initial = true
  /\ slotOk (snd (makeRequest Remote.demo Remote.alwaysUnauthorized 3
                    "/tests" [] initial)) = true.
Proof.
  split; [reflexivity|].
  apply (slot_never_holds_unusable_token Remote.demo Remote.alwaysUnauthorized
           3 "/tests" [] VNull initial).
  reflexivity.
Defined.

Lemma executors_send_current_token_witness :
  authenticate Remote.demo
    (Remote.scripted [Remote.loginOk "fresh"; Remote.unauthorized]) initial
  = (Normal (VStr "fresh"),
     {| jwtToken := VStr "fresh"; calls := [loginRequest Remote.demo] |})
  /\ exists rest,
       calls (snd (makeRequest Remote.demo
                     (Remote.scripted [Remote.loginOk "fresh";
                                       Remote.unauthorized])
                     2 "/tests" [] initial))
       = ([loginRequest Remote.demo]
          ++ resourceRequest Remote.demo GET "/tests" (searchParams [])
               (VStr "fresh") NoBody
             :: rest)%list.
Proof.
  split; [reflexivity|].
  destruct (executors_send_current_token Remote.demo
              (Remote.scripted [Remote.loginOk "fresh"; Remote.unauthorized])
              1 "/tests" [] VNull initial
              {| jwtToken := VStr "fresh";
                 calls := [loginRequest Remote.demo] |}
              (VStr "fresh"))
    as (_ & _ & H & _).
  - reflexivity.
  - exact H.
Defined.

Lemma makeRequest_failure_not_retried_witness :
  makeRequest Remote.demo
    (Remote.answering (Remote.failure 500 "Internal Server Error" "oops"))
    1 "/tests" [] (Remote.cached "jwt")
  = (Throw (Error "HTTP 500: Internal Server Error"),
     logged (Remote.cached "jwt")
       (resourceRequest Remote.demo GET "/tests" [] (VStr "jwt") NoBody)).
Proof.
  apply (makeRequest_failure_not_retried Remote.demo
           (Remote.answering (Remote.failure 500 "Internal Server Error" "oops"))
           0 "/tests" [] (Remote.cached "jwt") (VStr "jwt")
           (Remote.cached "jwt"));
    [reflexivity | reflexivity | discriminate].
Defined.

Lemma makePostRequest_failure_witness :
  makePostRequest Remote.demo
    (Remote.answering (Remote.failure 422 "Unprocessable Entity" "bad title"))
    1 "/tests" VNull (Remote.cached "jwt")
  = (Throw (Error "HTTP 422: Unprocessable Entity; bad title"),
     logged (Remote.cached "jwt")
       (resourceRequest Remote.demo POST "/tests" [] (VStr "jwt")
          (JsonBody VNull))).
Proof.
  apply (makePostRequest_failure Remote.demo
           (Remote.answering
              (Remote.failure 422 "Unprocessable Entity" "bad title"))
           0 "/tests" VNull (Remote.cached "jwt") (VStr "jwt")
           (Remote.cached "jwt"));
    [reflexivity | reflexivity | discriminate].
Defined.

Lemma authenticate_login_refused_witness :
  authenticate Remote.demo
    (Remote.scripted [Remote.failure 401 "Unauthorized" "Invalid credentials"])
    initial
  = (Throw (Error "Authentication failed: HTTP 401: Unauthorized. Response: Invalid credentials"),
     logged initial (loginRequest Remote.demo)).
Proof.
  apply (authenticate_login_refused Remote.demo
           (Remote.scripted
              [Remote.failure 401 "Unauthorized" "Invalid credentials"])
           initial);
    reflexivity.
Defined.

(** ** Query parameters *)

Section QueryFacts.

Lemma appendParam_acc (acc : list (string * string)) (kv : string * value) :
  appendParam acc kv = (acc ++ appendParam [] kv)%list.
Proof.
  unfold appendParam. destruct (snd kv); simpl; rewrite ?app_nil_r;
    reflexivity.
Qed.

Lemma searchParams_acc (params : list (string * value))
    (acc : list (string * string)) :
  fold_left appendParam params acc = (acc ++ searchParams params)%list.
Proof.
  unfold searchParams. revert acc.
  induction params as [|kv params IH]; intros acc; simpl.
  - now rewrite app_nil_r.
  - rewrite IH, (IH (appendParam [] kv)), appendParam_acc.
    now rewrite app_assoc.
Qed.

(** X13.  The query of [makeRequest] is built entry by entry: the query
    of two parameter lists one after the other is the two queries one
    after the other, and one entry gives no pair when its value is
    [null] or [undefined], one pair per element (in order, duplicates
    kept) when it is an array, and one pair otherwise. *)
Theorem searchParams_entry_by_entry
    (p q : list (string * value)) (k : string) (v : value) :
  searchParams (p ++ q) = (searchParams p ++ searchParams q)%list
  /\ searchParams ((k, v) :: p)
     = ((match v with
         | VUndefined | VNull => []
         | VArr vs => map (fun x => (k, toStr x)) vs
         | _ => [(k, toStr v)]
         end) ++ searchParams p)%list.
Proof.
  split.
  - unfold searchParams at 1. rewrite fold_left_app.
    now rewrite searchParams_acc.
  - unfold searchParams at 1. simpl. rewrite searchParams_acc.
    f_equal. unfold appendParam. simpl. now destruct v.
Qed.

Example buildSearchParams_sample :
  searchParams
    (buildSearchParams [("labels", VArr [VStr "a"; VStr "b"]);
                        ("filter", VObj [("state", VStr "manual")]);
                        ("page", VNum 1)])
  = [("labels[]", "a"); ("labels[]", "b"); ("filter[state]", "manual");
     ("page", "1")].
Proof. reflexivity. Qed.

Lemma buildParam_nullish (params : list (string * value)) (kv : string * value) :
  nullish (snd kv) = true -> buildParam params kv = params.
Proof. unfold buildParam. destruct (snd kv); simpl; (discriminate || reflexivity). Qed.

(** X15.  Filters whose value is [null] or [undefined] leave no trace in
    the parameters: the result is that of the filters without them. *)
Theorem buildSearchParams_skips_nullish (filters : list (string * value)) :
  buildSearchParams filters
  = buildSearchParams (filter (fun kv => negb (nullish (snd kv))) filters).
Proof.
  unfold buildSearchParams. generalize (@nil (string * value)) as acc.
  induction filters as [|kv filters IH]; intros acc; simpl; [reflexivity|].
  destruct (nullish (snd kv)) eqn:E; simpl.
  - rewrite (buildParam_nullish _ _ E). apply IH.
  - apply IH.
Qed.


Lemma pushParam_getOwn_other (k k' : string) (v : value)
    (params : list (string * value)) :
  k <> k' -> getOwn k (pushParam k' v params) = getOwn k params.
Proof.
  intros N. unfold pushParam.
  destruct (truthy (getOwn k' params)).
  - destruct (getOwn k' params); now rewrite getOwn_setOwn_other.
  - destruct (getOwn k' (setOwn k' (VArr []) params));
      now rewrite !getOwn_setOwn_other.
Qed.

Lemma pushParam_fold_getOwn_other (k k' : string) (vs : list value)
    (params : list (string * value)) :
  k <> k' ->
  getOwn k (fold_left (fun p v => pushParam k' v p) vs params)
  = getOwn k params.
Proof.
  intros N. revert params.
  induction vs as [|v vs IH]; intros params; simpl; [reflexivity|].
  now rewrite IH, pushParam_getOwn_other.
Qed.

Lemma filterKeys_fold_getOwn (entries : list (string * value))
    (params : list (string * value)) :
  getOwn "filter"
    (fold_left (fun p fkv => setOwn ("filter[" ++ fst fkv ++ "]") (snd fkv) p)
               entries params)
  = getOwn "filter" params.
Proof.
  revert params.
  induction entries as [|[fk fv] entries IH]; intros params; simpl;
    [reflexivity|].
  rewrite IH. apply getOwn_setOwn_other. discriminate.
Qed.



Lemma pushParam_first (k : string) (v : value)
    (params : list (string * value)) :
  getOwn k params = VUndefined ->
  getOwn k (pushParam k v params) = VArr [v].
Proof.
  intros H. unfold pushParam. rewrite H. simpl.
  rewrite getOwn_setOwn_same. apply getOwn_setOwn_same.
Qed.

Lemma pushParam_next (k : string) (v : value) (xs : list value)
    (params : list (string * value)) :
  getOwn k params = VArr xs ->
  getOwn k (pushParam k v params) = VArr (xs ++ [v]).
Proof.
  intros H. unfold pushParam. rewrite H. simpl. rewrite H.
  apply getOwn_setOwn_same.
Qed.

Lemma pushParam_fold_next (k : string) (vs xs : list value)
    (params : list (string * value)) :
  getOwn k params = VArr xs ->
  getOwn k (fold_left (fun p v => pushParam k v p) vs params)
  = VArr (xs ++ vs).
Proof.
  revert xs params.
  induction vs as [|v vs IH]; intros xs params H; simpl.
  - now rewrite app_nil_r.
  - rewrite (IH (xs ++ [v])%list); [now rewrite <- app_assoc|].
    now apply pushParam_next.
Qed.

Lemma pushParam_fold_first (k : string) (vs : list value)
    (params : list (string * value)) :
  getOwn k params = VUndefined ->
  getOwn k (fold_left (fun p v => pushParam k v p) vs params)
  = match vs with [] => VUndefined | _ => VArr vs end.
Proof.
  intros H. destruct vs as [|v vs]; simpl; [exact H|].
  rewrite (pushParam_fold_next k vs [v]); [reflexivity|].
  now apply pushParam_first.
Qed.

Lemma filterKeys_fold_getOwn_other (k : string)
    (entries params : list (string * value)) :
  ~ In k (map (fun fkv => "filter[" ++ fst fkv ++ "]") entries) ->
  getOwn k
    (fold_left (fun p fkv => setOwn ("filter[" ++ fst fkv ++ "]") (snd fkv) p)
               entries params)
  = getOwn k params.
Proof.
  revert params.
  induction entries as [|[fk fv] entries IH]; intros params N; simpl;
    [reflexivity|].
  rewrite IH.
  - apply getOwn_setOwn_other. intros E. apply N. left. now symmetry.
  - intros I. apply N. now right.
Qed.

Lemma assignParam_getOwn_other (k key text : string)
    (params : list (string * value)) :
  k <> key -> getOwn k (assignParam key text params) = getOwn k params.
Proof.
  intros N. unfold assignParam.
  destruct (key =? "__proto__"); [reflexivity|].
  now apply getOwn_setOwn_other.
Qed.

(** An entry of [filters] leaves alone every parameter it does not
    write. *)
Lemma buildParam_getOwn_other (k : string) (params : list (string * value))
    (kv : string * value) :
  ~ In k (writtenKeys kv) ->
  getOwn k (buildParam params kv) = getOwn k params.
Proof.
  destruct kv as [key v]. unfold buildParam, writtenKeys. simpl.
  assert (S1 : forall x : string, ~ In k [x] -> k <> x).
  { intros x N E. apply N. left. now symmetry. }
  destruct v; intros N; try reflexivity;
    try (apply assignParam_getOwn_other; now apply S1).
  - destruct (key =? "labels").
    { apply pushParam_fold_getOwn_other. now apply S1. }
    destruct (key =? "filter").
    + unfold filterEntries. simpl. now apply filterKeys_fold_getOwn_other.
    + apply pushParam_fold_getOwn_other. now apply S1.
  - destruct (key =? "filter").
    + now apply filterKeys_fold_getOwn_other.
    + apply assignParam_getOwn_other. now apply S1.
Qed.

Lemma buildParams_getOwn_other (k : string) (l params : list (string * value)) :
  Forall (fun kv => ~ In k (writtenKeys kv)) l ->
  getOwn k (fold_left buildParam l params) = getOwn k params.
Proof.
  intros F. revert params.
  induction F as [|kv l N F IH]; intros params; simpl; [reflexivity|].
  now rewrite IH, buildParam_getOwn_other.
Qed.

Lemma NoDup_pushParam (k : string) (v : value) (params : list (string * value)) :
  NoDup (map fst params) -> NoDup (map fst (pushParam k v params)).
Proof.
  intros H. unfold pushParam.
  destruct (truthy (getOwn k params)).
  - destruct (getOwn k params); now apply NoDup_setOwn.
  - destruct (getOwn k (setOwn k (VArr []) params));
      now apply NoDup_setOwn, NoDup_setOwn.
Qed.

Lemma NoDup_pushParam_fold (k : string) (vs : list value)
    (params : list (string * value)) :
  NoDup (map fst params) ->
  NoDup (map fst (fold_left (fun p v => pushParam k v p) vs params)).
Proof.
  revert params. induction vs as [|v vs IH]; intros params H; simpl;
    [exact H|].
  now apply IH, NoDup_pushParam.
Qed.

Lemma NoDup_filterKeys_fold (entries params : list (string * value)) :
  NoDup (map fst params) ->
  NoDup (map fst
           (fold_left
              (fun p fkv => setOwn ("filter[" ++ fst fkv ++ "]") (snd fkv) p)
              entries params)).
Proof.
  revert params. induction entries as [|e entries IH]; intros params H; simpl;
    [exact H|].
  now apply IH, NoDup_setOwn.
Qed.

Lemma NoDup_assignParam (key text : string) (params : list (string * value)) :
  NoDup (map fst params) -> NoDup (map fst (assignParam key text params)).
Proof.
  intros H. unfold assignParam.
  destruct (key =? "__proto__"); [exact H | now apply NoDup_setOwn].
Qed.

Lemma NoDup_buildParam (params : list (string * value)) (kv : string * value) :
  NoDup (map fst params) -> NoDup (map fst (buildParam params kv)).
Proof.
  intros H. unfold buildParam.
  destruct (snd kv); try exact H; try now apply NoDup_assignParam.
  - destruct (fst kv =? "labels"); [now apply NoDup_pushParam_fold|].
    destruct (fst kv =? "filter");
      [now apply NoDup_filterKeys_fold | now apply NoDup_pushParam_fold].
  - destruct (fst kv =? "filter");
      [now apply NoDup_filterKeys_fold | now apply NoDup_assignParam].
Qed.

(** The parameters built hold each name once. *)
Lemma NoDup_buildSearchParams (filters : list (string * value)) :
  NoDup (map fst (buildSearchParams filters)).
Proof.
  unfold buildSearchParams.
  assert (G : forall params, NoDup (map fst params) ->
                NoDup (map fst (fold_left buildParam filters params))).
  { induction filters as [|kv filters IH]; intros params H; simpl;
      [exact H|].
    now apply IH, NoDup_buildParam. }
  apply G. constructor.
Qed.

Lemma searchParams_cons (kv : string * value) (p : list (string * value)) :
  searchParams (kv :: p) = (appendParam [] kv ++ searchParams p)%list.
Proof. unfold searchParams at 1. simpl. now rewrite searchParams_acc. Qed.

Lemma filter_pairs_named (k k0 : string) (vs : list value) :
  filter (fun q : string * string => fst q =? k)
         (map (fun v => (k0, toStr v)) vs)
  = if k0 =? k then map (fun v => (k0, toStr v)) vs else [].
Proof.
  induction vs as [|v vs IH]; simpl.
  - now destruct (k0 =? k).
  - rewrite IH. now destruct (k0 =? k).
Qed.

Lemma appendParam_filter (k k0 : string) (v : value) :
  filter (fun q : string * string => fst q =? k) (appendParam [] (k0, v))
  = if k0 =? k then appendParam [] (k0, v) else [].
Proof.
  unfold appendParam. simpl.
  destruct v; simpl; try (now destruct (k0 =? k)).
  apply filter_pairs_named.
Qed.

Lemma searchParams_absent (k : string) (p : list (string * value)) :
  ~ In k (map fst p) ->
  filter (fun q : string * string => fst q =? k) (searchParams p) = [].
Proof.
  induction p as [|[k0 v0] p IH]; intros N; [reflexivity|].
  rewrite searchParams_cons, filter_app, appendParam_filter.
  destruct (String.eqb_spec k0 k) as [E|_].
  - exfalso. apply N. now left.
  - apply IH. intros I. apply N. now right.
Qed.

(** In the query, the pairs under one name are those of the parameter of
    that name. *)
Lemma searchParams_under (k : string) (p : list (string * value)) :
  NoDup (map fst p) ->
  filter (fun q : string * string => fst q =? k) (searchParams p)
  = appendParam [] (k, getOwn k p).
Proof.
  induction p as [|[k0 v0] p IH]; intros H; [reflexivity|].
  inversion H as [|? ? Hn Hd]; subst.
  rewrite searchParams_cons, filter_app, appendParam_filter.
  unfold getOwn. simpl lookup.
  destruct (String.eqb_spec k0 k) as [->|N].
  - rewrite (searchParams_absent _ _ Hn). now rewrite app_nil_r.
  - simpl. now apply IH.
Qed.

(** X14.  An array-valued filter, other than [filter], reaches the query
    as repeated [name[]] pairs, one per element and in order, and these
    are all the pairs under that name, wherever the filter stands among
    the others, as long as no other filter writes the parameter
    [name[]]; an empty array adds nothing. *)
Theorem array_filter_sent_as_repeated_pairs
    (before after : list (string * value)) (key : string) (vs : list value) :
  (key =? "filter") = false ->
  Forall (fun kv => ~ In (key ++ "[]") (writtenKeys kv)) (before ++ after) ->
  let params := buildSearchParams (before ++ (key, VArr vs) :: after) in
  getOwn (key ++ "[]") params
  = match vs with [] => VUndefined | _ => VArr vs end
  /\ filter (fun q : string * string => fst q =? key ++ "[]")
            (searchParams params)
     = map (fun v => (key ++ "[]", toStr v)) vs.
Proof.
  intros Hf F params. apply Forall_app in F. destruct F as [Fb Fa].
  assert (G : getOwn (key ++ "[]") params
              = match vs with [] => VUndefined | _ => VArr vs end).
  { unfold params, buildSearchParams. rewrite fold_left_app. simpl.
    rewrite (buildParams_getOwn_other _ after _ Fa).
    assert (B : forall p,
              buildParam p (key, VArr vs)
              = fold_left (fun p v => pushParam (key ++ "[]") v p) vs p).
    { intros p. unfold buildParam. simpl. rewrite Hf.
      destruct (String.eqb_spec key "labels") as [->|]; reflexivity. }
    rewrite B. apply pushParam_fold_first.
    now rewrite (buildParams_getOwn_other _ before [] Fb). }
  split; [exact G|].
  unfold params in *.
  rewrite (searchParams_under _ _ (NoDup_buildSearchParams _)), G.
  now destruct vs.
Qed.

Lemma array_filter_sent_as_repeated_pairs_witness :
  ("tags" =? "filter") = false
  /\ Forall (fun kv => ~ In ("tags" ++ "[]") (writtenKeys kv))
       ([("query", VStr "login")]
        ++ [("filter", VObj [("state", VStr "manual")]); ("page", VNum 1)])
  /\ filter (fun q : string * string => fst q =? "tags" ++ "[]")
       (searchParams
          (buildSearchParams
             ([("query", VStr "login")]
              ++ ("tags", VArr [VStr "a"; VStr "b"])
                 :: [("filter", VObj [("state", VStr "manual")]);
                     ("page", VNum 1)])))
     = [("tags[]", "a"); ("tags[]", "b")].
Proof.
  assert (F : Forall (fun kv => ~ In ("tags" ++ "[]") (writtenKeys kv))
                ([("query", VStr "login")]
                 ++ [("filter", VObj [("state", VStr "manual")]);
                     ("page", VNum 1)])).
  { repeat constructor; simpl; intros [E|[]]; discriminate E. }
  split; [reflexivity|]. split; [exact F|].
  exact (proj2 (array_filter_sent_as_repeated_pairs
                  [("query", VStr "login")]
                  [("filter", VObj [("state", VStr "manual")]);
                   ("page", VNum 1)]
                  "tags" [VStr "a"; VStr "b"] eq_refl F)).
Defined.

(** Where another filter writes the same parameter the array is not what
    is sent: a later scalar under [tags[]] replaces it. *)
Example array_filter_overwritten :
  searchParams
    (buildSearchParams [("tags", VArr [VStr "x"]); ("tags[]", VStr "y")])
  = [("tags[]", "y")].
Proof. reflexivity. Qed.




End QueryFacts.

(** ** Request bodies of the create and update operations *)

Section BodyFacts.

Import Str.














End BodyFacts.

(** ** Tool operations *)

Section ToolFacts.

Import Str.

Variable cfg : config.
Variable net : network.
Variable positiveNumeric : string -> bool.

Lemma join_starts (sep first rest : string) (parts : list string) :
  first = String "<" rest ->
  exists tail, join sep (first :: parts) = String "<" tail.
Proof.
  intros ->. unfold join. simpl.
  destruct parts; eexists; reflexivity.
Qed.

(** X20.  The text a collection is rendered to is empty exactly when the
    collection is empty, so the "nothing found" sentence of the search
    operations stands for an empty collection and for nothing else. *)
Theorem formatCollection_empty_iff
    (data : value) (items : list value) (tagName : string)
    (fields : list string) (s : string) :
  getProp data "data" = Normal (VArr items) ->
  formatCollection data tagName fields = Normal s ->
  (s = "" <-> items = [])
  /\ (orElse s "No tests found matching the criteria." = s <-> items <> []).
Proof.
  intros Hd. unfold formatCollection. rewrite Hd. unfold formatAll.
  destruct items as [|x items]; [simpl | cbn [mapFormat]].
  - intros H. injection H as <-. split; split; try reflexivity;
      intros H; try discriminate H. now contradiction H.
  - destruct (formatModel x tagName fields) as [s1|e|] eqn:F; try discriminate.
    destruct (mapFormat items tagName fields) as [parts|e|]; try discriminate.
    destruct (formatModel_starts _ _ _ _ F) as (rest & E).
    destruct (join_starts (nl ++ nl) s1 rest parts E) as (tail & J).
    rewrite J. intros H. injection H as <-.
    split; split; intros H; try discriminate H; try discriminate;
      reflexivity.
Qed.

(** X21.  With an empty collection in the answer, [searchTests] returns
    its heading followed by the sentence "No tests found matching the
    criteria.", while [getTests] returns its heading with nothing after
    it. *)
Theorem searchTests_empty_collection
    (fuel : nat) (filters : value) (entries : list (string * value))
    (data : value) (description : string) (st st' : state) :
  objectEntries (orEmptyObject filters) = Normal entries ->
  makeRequest cfg net fuel "/tests" (buildSearchParams entries) st
    = (Normal data, st') ->
  getProp data "data" = Normal (VArr []) ->
  buildSearchDescription positiveNumeric (orEmptyObject filters)
    = Normal description ->
  searchTests cfg net positiveNumeric fuel filters st
    = (Normal ("Search results for tests" ++ description ++ ":" ++ nl ++ nl
               ++ "No tests found matching the criteria."), st')
  /\ getTests cfg net fuel filters st
     = (Normal ("Tests for project " ++ projectId cfg ++ ":" ++ nl ++ nl), st').
Proof.
  intros He Hr Hd Hdesc.
  unfold searchTests, getTests, bind, lift, ret.
  rewrite He, Hr. unfold formatCollection. rewrite Hd, Hdesc. simpl.
  split; reflexivity.
Qed.

(** X22.  A name the handler does not know is answered with the text
    "Error: Unknown tool: <name>"; nothing is sent and the state is as
    before. *)
Theorem callTool_unknown_name
    (fuel : nat) (name : string) (args : value) (st : state) :
  existsb (String.eqb name) toolNames = false ->
  callTool cfg net positiveNumeric fuel name args st
  = (Normal ("Error: Unknown tool: " ++ name), st).
Proof.
  intros H. unfold toolNames in H. simpl in H.
  repeat (apply orb_false_iff in H; destruct H as [? H]).
  unfold callTool, dispatch.
  repeat match goal with
         | E : (name =? _) = false |- _ => rewrite E; clear E
         end.
  reflexivity.
Qed.

Section AuthenticationFails.

Variable st st' : state.
Variable e : exn.
Hypothesis refused : authenticate cfg net st = (Throw e, st').







End AuthenticationFails.


End ToolFacts.

Lemma formatCollection_empty_iff_witness :
  getProp Remote.emptyCollection "data" = Normal (VArr [])
  /\ formatCollection Remote.emptyCollection "test" testFields = Normal ""
  /\ ("" = "" <-> @nil value = [])
  /\ (orElse "" "No tests found matching the criteria." = ""
      <-> @nil value <> []).
Proof.
  split; [reflexivity|]. split; [reflexivity|].
  apply (formatCollection_empty_iff Remote.emptyCollection [] "test"
           testFields ""); reflexivity.
Defined.

Lemma searchTests_empty_collection_witness :
  searchTests Remote.demo
    (Remote.scripted [Remote.okJson Remote.emptyCollection])
    (fun _ => false) 1 (VObj [("state", VStr "manual")]) (Remote.cached "jwt")
  = (Normal ("Search results for tests" ++ " (state: manual)" ++ ":"
             ++ Str.nl ++ Str.nl ++ "No tests found matching the criteria."),
     logged (Remote.cached "jwt")
       (resourceRequest Remote.demo GET "/tests" [("state", "manual")]
          (VStr "jwt") NoBody))
  /\ getTests Remote.demo
       (Remote.scripted [Remote.okJson Remote.emptyCollection])
       1 (VObj [("state", VStr "manual")]) (Remote.cached "jwt")
     = (Normal ("Tests for project " ++ projectId Remote.demo ++ ":"
                ++ Str.nl ++ Str.nl),
        logged (Remote.cached "jwt")
          (resourceRequest Remote.demo GET "/tests" [("state", "manual")]
             (VStr "jwt") NoBody)).
Proof.
  apply (searchTests_empty_collection Remote.demo
           (Remote.scripted [Remote.okJson Remote.emptyCollection])
           (fun _ => false) 1 (VObj [("state", VStr "manual")])
           [("state", VStr "manual")] Remote.emptyCollection
           " (state: manual)" (Remote.cached "jwt"));
    reflexivity.
Defined.

Lemma callTool_unknown_name_witness :
  existsb (String.eqb "delete_test") toolNames = false
  /\ callTool Remote.demo Remote.alwaysUnauthorized (fun _ => false)
       1 "delete_test" (VObj []) initial
     = (Normal "Error: Unknown tool: delete_test", initial).
Proof.
  split; [reflexivity|].
  apply (callTool_unknown_name Remote.demo Remote.alwaysUnauthorized
           (fun _ => false) 1 "delete_test" (VObj []) initial).
  reflexivity.
Defined.


(** ** The search description *)

Section DescriptionFacts.

Import Str.

Variable positiveNumeric : string -> bool.

Lemma digits1_spec (s : string) :
  digits1 s = true <-> s <> "" /\ allChars isDigit s = true.
Proof.
  induction s as [|c s IH]; simpl.
  - split; [discriminate | intros [H _]; now contradiction H].
  - destruct s as [|d s'].
    + simpl. rewrite andb_true_r. split; [intros H; split; [discriminate|exact H]
                                         | intros [_ H]; exact H].
    + rewrite andb_true_iff, IH. split.
      * intros [Hc [_ Hs]]. split; [discriminate|].
        now rewrite Hc, Hs.
      * intros [_ H]. apply andb_true_iff in H. destruct H as [Hc Hs].
        repeat split; [exact Hc | discriminate | exact Hs].
Qed.

Lemma issueKeyFrom_split (seen : bool) (s : string) :
  issueKeyFrom seen s = true ->
  exists letters digits,
    s = letters ++ "-" ++ digits
    /\ allChars isUpper letters = true
    /\ (seen = true \/ letters <> "")
    /\ digits1 digits = true.
Proof.
  revert seen. induction s as [|c s IH]; intros seen; simpl; [discriminate|].
  destruct (isUpper c) eqn:U.
  - intros H. destruct (IH true H) as (l & d & -> & Hl & _ & Hd).
    exists (String c l), d. simpl. rewrite U, Hl.
    repeat split; [right; discriminate | exact Hd].
  - intros H. apply andb_true_iff in H. destruct H as [H Hd].
    apply andb_true_iff in H. destruct H as [Hc Hs].
    apply Ascii.eqb_eq in Hc. subst c.
    exists "", s. simpl. repeat split; [now left | exact Hd].
Qed.

Lemma issueKeyFrom_build (seen : bool) (letters digits : string) :
  allChars isUpper letters = true ->
  (seen = true \/ letters <> "") ->
  digits1 digits = true ->
  issueKeyFrom seen (letters ++ "-" ++ digits) = true.
Proof.
  revert seen. induction letters as [|c l IH]; intros seen Hl Hs Hd; simpl.
  - destruct Hs as [->|N]; [exact Hd | now contradiction N].
  - simpl in Hl. apply andb_true_iff in Hl. destruct Hl as [U Hl].
    rewrite U. apply IH; [exact Hl | now left | exact Hd].
Qed.

Lemma issueKey_described (q : string) :
  isIssueKey q = true ->
  describeQuery (VStr q) = Normal ["linked to Jira issue " ++ quoted q].
Proof.
  intros K. unfold isIssueKey in K.
  destruct q as [|c q]; [discriminate K|].
  unfold describeQuery. simpl truthy. cbv iota.
  simpl in K.
  destruct (isUpper c) eqn:U.
  - assert (A : startsWith "@" (String c q) = false).
    { cbn [startsWith].
      destruct (Ascii.eqb "@" c) eqn:E; [|reflexivity].
      apply Ascii.eqb_eq in E. subst c. vm_compute in U. discriminate U. }
    rewrite A. unfold isIssueKey. simpl. rewrite U, K. reflexivity.
  - apply andb_true_iff in K. destruct K as [K _].
    apply andb_true_iff in K. destruct K as [_ K]. discriminate K.
Qed.

Lemma described_issueKey (q : string) :
  describeQuery (VStr q) = Normal ["linked to Jira issue " ++ quoted q] ->
  isIssueKey q = true.
Proof.
  unfold describeQuery.
  destruct q as [|c q]; [intros H; discriminate H|].
  simpl truthy. cbv iota.
  destruct (startsWith "@" (String c q)).
  { intros H. simpl in H. discriminate H. }
  destruct (isIssueKey (String c q)); [reflexivity|].
  intros H. simpl in H. discriminate H.
Qed.

(** X24.  A query is described as a Jira issue exactly when it is one or
    more capital letters, a hyphen, and one or more digits up to its
    end. *)
Theorem query_issue_key_shape (q : string) :
  (isIssueKey q = true <->
   exists letters digits,
     q = letters ++ "-" ++ digits
     /\ letters <> "" /\ allChars isUpper letters = true
     /\ digits <> "" /\ allChars isDigit digits = true)
  /\ (describeQuery (VStr q) = Normal ["linked to Jira issue " ++ quoted q]
      <-> isIssueKey q = true).
Proof.
  split.
  - unfold isIssueKey. split.
    + intros H.
      destruct (issueKeyFrom_split false q H) as (l & d & -> & Hl & Hs & Hd).
      apply digits1_spec in Hd. destruct Hd as [Hn Hd].
      exists l, d. repeat split; try assumption.
      destruct Hs as [Hs|Hs]; [discriminate Hs | exact Hs].
    + intros (l & d & -> & Hn & Hl & Hdn & Hd).
      apply issueKeyFrom_build; [exact Hl | now right |].
      apply digits1_spec. now split.
  - split; [apply described_issueKey | apply issueKey_described].
Qed.

End DescriptionFacts.

(** ** getSuite *)

Section SuiteFacts.

Import Str.

Variable cfg : config.
Variable net : network.

(** X25.  A suite whose answer names no child suites and no tests (the
    relationship is missing, or its list is empty) is rendered as the
    heading and the suite alone, without a "Child Suites:" or "Tests:"
    section. *)
Theorem getSuite_without_children
    (fuel : nat) (suiteId data model relationships : value)
    (formatted : string) (st st' : state) :
  makeRequest cfg net fuel ("/suites/" ++ toStr suiteId) [] st
    = (Normal data, st') ->
  getProp data "data" = Normal model ->
  formatModel model "suite" suiteFields = Normal formatted ->
  getProp model "relationships" = Normal relationships ->
  (let items := optionalProp (optionalProp relationships "children") "data" in
   truthy items = false \/ items = VArr []) ->
  (let items := optionalProp (optionalProp relationships "tests") "data" in
   truthy items = false \/ items = VArr []) ->
  getSuite cfg net fuel suiteId st
  = (Normal ("Suite " ++ toStr suiteId ++ ":" ++ nl ++ nl ++ formatted), st').
Proof.
  intros Hr Hd Hf Hrel Hc Ht.
  assert (E : forall name heading tagName fields,
             (let items := optionalProp (optionalProp relationships name)
                             "data" in
              truthy items = false \/ items = VArr []) ->
             childSection relationships name heading tagName fields
             = Normal "").
  { intros name heading tagName fields H. unfold childSection.
    destruct H as [F|A].
    - now rewrite F.
    - rewrite A. reflexivity. }
  unfold getSuite, bind, lift, ret.
  rewrite Hr, Hd, Hf, Hrel, (E _ _ _ _ Hc), (E _ _ _ _ Ht).
  now rewrite !append_empty_r.
Qed.

End SuiteFacts.

Lemma getSuite_without_children_witness :
  getSuite Remote.demo
    (Remote.scripted
       [Remote.okJson
          (VObj [("data",
                  VObj [("id", VStr "S1");
                        ("relationships",
                         VObj [("parent",
                                VObj [("data",
                                       VObj [("type", VStr "suites");
                                             ("id", VStr "P")])])])])])])
    1 (VStr "S1") (Remote.cached "jwt")
  = (Normal ("Suite " ++ toStr (VStr "S1") ++ ":" ++ Str.nl ++ Str.nl
             ++ ("<suite>" ++ Str.nl ++ "  <id>S1</id>" ++ Str.nl
                 ++ "  <title></title>" ++ Str.nl
                 ++ "  <description></description>" ++ Str.nl
                 ++ "  <test-count></test-count>" ++ Str.nl
                 ++ "  <is-root></is-root>" ++ Str.nl
                 ++ "  <file-type></file-type>" ++ Str.nl ++ "</suite>")),
     logged (Remote.cached "jwt")
       (resourceRequest Remote.demo GET "/suites/S1" [] (VStr "jwt") NoBody)).
Proof.
  apply (getSuite_without_children Remote.demo
           (Remote.scripted
              [Remote.okJson
                 (VObj [("data",
                         VObj [("id", VStr "S1");
                               ("relationships",
                                VObj [("parent",
                                       VObj [("data",
                                              VObj [("type", VStr "suites");
                                                    ("id", VStr "P")])])])])])])
           1 (VStr "S1")
           (VObj [("data",
                   VObj [("id", VStr "S1");
                         ("relationships",
                          VObj [("parent",
                                 VObj [("data",
                                        VObj [("type", VStr "suites");
                                              ("id", VStr "P")])])])])])
           (VObj [("id", VStr "S1");
                  ("relationships",
                   VObj [("parent",
                          VObj [("data",
                                 VObj [("type", VStr "suites");
                                       ("id", VStr "P")])])])])
           (VObj [("parent",
                   VObj [("data",
                          VObj [("type", VStr "suites");
                                ("id", VStr "P")])])]));
    try reflexivity; left; reflexivity.
Defined.
